(** * POS System Backend API: a shallow embedding of [main.py]

    The two business endpoints ([search_product], [purchase]), the
    connection provider ([get_db_connection]) and the request contracts
    ([PurchaseItem], [PurchaseRequest]) are transcribed as functions over an
    explicit world (configuration, database server, clock, driver calls).
    Python exceptions are results of an error monad; the [float] of
    [item.prd_price / 1.1] is IEEE 754 binary64, computed on integers by the
    Standard Library's [SpecFloat]. *)

From Stdlib Require Import ZArith NArith List Bool Lia Ascii String.
From Stdlib Require Import Floats.SpecFloat.
Import ListNotations.
Open Scope Z_scope.

(** ** Python strings: sequences of Unicode code points *)

Definition str := list N.

(** An ASCII literal of the source, as code points. *)
Definition lit (s : string) : str :=
  List.map N_of_ascii (list_ascii_of_string s).

Fixpoint str_eqb (a b : str) : bool :=
  match a, b with
  | [], [] => true
  | x :: a', y :: b' => N.eqb x y && str_eqb a' b'
  | _, _ => false
  end.

(** Truth value of a [str]: the empty string is falsy. *)
Definition str_truthy (s : str) : bool :=
  match s with [] => false | _ :: _ => true end.

(** [len(s)] *)
Definition len (s : str) : Z := Z.of_nat (List.length s).

(** The characters [str.strip()] removes: CPython's [Py_UNICODE_ISSPACE]. *)
Definition isspace (c : N) : bool :=
  (((9 <=? c) && (c <=? 13)) || ((28 <=? c) && (c <=? 32))
   || (c =? 133) || (c =? 160) || (c =? 5760)
   || ((8192 <=? c) && (c <=? 8202))
   || (c =? 8232) || (c =? 8233) || (c =? 8239) || (c =? 8287)
   || (c =? 12288))%N.

Fixpoint lstrip (s : str) : str :=
  match s with
  | [] => []
  | c :: s' => if isspace c then lstrip s' else s
  end.

Definition rstrip (s : str) : str := List.rev (lstrip (List.rev s)).

(** [s.strip()] *)
Definition strip (s : str) : str := rstrip (lstrip s).

(** A surrogate code point: a [str] can hold one (JSON's "\ud800" decodes to
    it), UTF-8 cannot encode it. *)
Definition is_surrogate (c : N) : bool := ((55296 <=? c) && (c <=? 57343))%N.

(** [s.encode("utf-8")] succeeds. *)
Definition encodable (s : str) : bool :=
  List.forallb (fun c => negb (is_surrogate c)) s.

(** ** Exceptions and results *)

Inductive exn : Type :=
| HTTPException (status_code : Z) (detail : str)
| pymysql_Error (msg : str)        (* pymysql.Error and its subclasses; [msg] is [str(e)] *)
| RequestValidationError           (* raised by the framework for a body that breaks the contract *)
| AttributeError
| OverflowError
| ValueError                       (* ValueError and its subclasses: pydantic's ValidationError, UnicodeEncodeError *)
| ZeroDivisionError.

Inductive result (A : Type) : Type :=
| Ret (a : A)
| Raise (e : exn).
Arguments Ret {A} a.
Arguments Raise {A} e.

(** The status the framework answers with: an [HTTPException] carries its
    own, a contract violation is 422, anything unhandled is 500. *)
Definition HTTP_400_BAD_REQUEST := 400.
Definition HTTP_422_UNPROCESSABLE_ENTITY := 422.
Definition HTTP_500_INTERNAL_SERVER_ERROR := 500.
Definition HTTP_503_SERVICE_UNAVAILABLE := 503.

Definition http_status {A} (r : result A) : Z :=
  match r with
  | Ret _ => 200
  | Raise (HTTPException s _) => s
  | Raise RequestValidationError => HTTP_422_UNPROCESSABLE_ENTITY
  | Raise _ => HTTP_500_INTERNAL_SERVER_ERROR
  end.

(** Pure computations that may raise. *)
Definition ebind {A B} (m : result A) (k : A -> result B) : result B :=
  match m with
  | Ret a => k a
  | Raise e => Raise e
  end.

(** ** binary64 arithmetic of [item.prd_price / 1.1] *)

Module Float.

Definition prec : Z := 53.
Definition emax : Z := 1024.

Definition float := spec_float.

(** [float(n)] for a Python [int]: round to nearest, ties to even;
    [OverflowError] when the integer is too large. *)
Definition of_int (n : Z) : result float :=
  match binary_normalize prec emax n 0 false with
  | S754_infinity _ => Raise OverflowError
  | f => Ret f
  end.

(** The literal [1.1]: 0x1.199999999999ap+0. *)
Definition lit_1_1 : float := S754_finite false 4953959590107546 (-52).

Definition is_zero (x : float) : bool :=
  match x with S754_zero _ => true | _ => false end.

(** [n / y] with [n] an [int] and [y] a [float]: the integer is converted,
    then the quotient is rounded once. *)
Definition int_truediv (n : Z) (y : float) : result float :=
  ebind (of_int n) (fun x =>
    if is_zero y then Raise ZeroDivisionError
    else Ret (SFdiv prec emax x y)).

(** [math.floor(x)] *)
Definition floor (x : float) : result Z :=
  match x with
  | S754_zero _ => Ret 0
  | S754_infinity _ => Raise OverflowError
  | S754_nan => Raise ValueError
  | S754_finite s m e =>
      let n := if s then Z.neg m else Z.pos m in
      Ret (if 0 <=? e then n * 2 ^ e else n / 2 ^ (- e))
  end.

End Float.

(** ** Pydantic models *)

Module Product.
Record t : Type := mk {
  prd_id : Z;
  prd_code : str;
  prd_name : str;
  prd_price : Z
}.
End Product.

Module ProductSearchResponse.
Record t : Type := mk { product : option Product.t }.
End ProductSearchResponse.

Module PurchaseItem.
Record t : Type := mk {
  prd_id : Z;
  prd_code : str;
  prd_name : str;
  prd_price : Z;
  quantity : Z
}.

(** [prd_price: gt=0], [quantity: gt=0, le=9999] *)
Definition valid (i : t) : bool :=
  (0 <? prd_price i) && (0 <? quantity i) && (quantity i <=? 9999).
End PurchaseItem.

Module PurchaseRequest.
Record t : Type := mk {
  emp_cd : option str;          (* Optional[str]: [None] is Python's None *)
  store_cd : str;
  pos_no : str;
  items : list PurchaseItem.t
}.

(** [max_length=20] on the three strings, [min_items=1] on [items], and
    every item valid. *)
Definition valid (r : t) : bool :=
  match emp_cd r with None => true | Some s => len s <=? 20 end
  && (len (store_cd r) <=? 20)
  && (len (pos_no r) <=? 20)
  && (1 <=? Z.of_nat (List.length (items r)))
  && List.forallb PurchaseItem.valid (items r).
End PurchaseRequest.

Module PurchaseResponse.
Record t : Type := mk {
  success : bool;
  total_amount : Z;
  total_amount_ex_tax : Z;
  transaction_id : option Z
}.
End PurchaseResponse.

(** ** The totals of [purchase] *)

(** [sum(g)] over integers already computed. *)
Definition sum (l : list Z) : Z := List.fold_left Z.add l 0.

(** [sum(f(item) for item in items)] when [f] may raise: the generator is
    consumed from the left and the first exception ends the sum. *)
Fixpoint sum_gen {A} (f : A -> result Z) (l : list A) (acc : Z) : result Z :=
  match l with
  | [] => Ret acc
  | x :: l' => ebind (f x) (fun v => sum_gen f l' (acc + v))
  end.

(** [math.floor(item.prd_price / 1.1)] *)
Definition unit_price_ex_tax (price : Z) : result Z :=
  ebind (Float.int_truediv price Float.lit_1_1) Float.floor.

(** [total_amount = sum(item.prd_price * item.quantity for item in request.items)] *)
Definition total_amount (items : list PurchaseItem.t) : Z :=
  sum (List.map (fun item =>
         PurchaseItem.prd_price item * PurchaseItem.quantity item) items).

(** [total_amount_ex_tax = sum(math.floor(item.prd_price / 1.1) * item.quantity ...)] *)
Definition total_amount_ex_tax (items : list PurchaseItem.t) : result Z :=
  sum_gen (fun item =>
             ebind (unit_price_ex_tax (PurchaseItem.prd_price item))
                   (fun u => Ret (u * PurchaseItem.quantity item)))
          items 0.

(** ** The world outside the process *)

Module Config.
(** Read from the environment when the module is imported. *)
Record t : Type := mk {
  DB_HOST : str;
  DB_USER : str;
  DB_PASSWORD : str;
  DB_NAME : str;
  DB_PORT : Z
}.
End Config.

(** A row of [t_txn]. *)
Record TxnRow : Type := mkTxnRow {
  TRD_ID : Z;
  DATETIME : Z;
  EMP_CD : str;
  STORE_CD : str;
  POS_NO : str;
  TOTAL_AMT : Z;
  TTL_AMT_EX_TAX : Z
}.

(** A row of [t_txn_dtl]. *)
Record DtlRow : Type := mkDtlRow {
  dtl_TRD_ID : Z;
  DTL_ID : Z;
  PRD_ID : Z;
  PRD_CODE : str;
  PRD_NAME : str;
  PRD_PRICE : Z;
  TAX_CD : str
}.

Record Tables : Type := mkTables {
  m_product : list Product.t;
  t_txn : list TxnRow;
  t_txn_dtl : list DtlRow
}.

(** The three statements the program sends, with their parameters. *)
Inductive Stmt : Type :=
| SelectProduct (code : str)
| InsertTxn (datetime : Z) (emp_cd store_cd pos_no : str)
            (total_amt ttl_amt_ex_tax : Z)
| InsertDtl (trd_id dtl_id prd_id : Z) (prd_code prd_name : str)
            (prd_price : Z) (tax_cd : str).

(** Calls made to the driver. *)
Inductive Call : Type :=
| CConnect
| CExecute (s : Stmt)
| CCommit
| CRollback
| CClose.

(** [committed] is what every reader of the store sees; [session] is the
    working copy of the open connection ([autocommit=False]), [None] when no
    connection is open.  [faults] holds the outcome of each driver call still
    to come, in order: [None] lets the call through, [Some msg] makes it raise
    [pymysql.Error] with that message; past the end of the list calls
    succeed.  [calls] records the driver calls made so far. *)
Record World : Type := mkWorld {
  config : Config.t;
  committed : Tables;
  auto_increment : Z;
  collation : str -> str -> bool;
  clock : Z;
  session : option Tables;
  faults : list (option str);
  calls : list Call
}.

Definition set_session (w : World) (s : option Tables) : World :=
  mkWorld (config w) (committed w) (auto_increment w) (collation w) (clock w)
          s (faults w) (calls w).

Definition set_committed (w : World) (t : Tables) : World :=
  mkWorld (config w) t (auto_increment w) (collation w) (clock w)
          (session w) (faults w) (calls w).

Definition set_auto_increment (w : World) (n : Z) : World :=
  mkWorld (config w) (committed w) n (collation w) (clock w)
          (session w) (faults w) (calls w).

Definition set_faults (w : World) (f : list (option str)) : World :=
  mkWorld (config w) (committed w) (auto_increment w) (collation w) (clock w)
          (session w) f (calls w).

Definition add_call (w : World) (c : Call) : World :=
  mkWorld (config w) (committed w) (auto_increment w) (collation w) (clock w)
          (session w) (faults w) (calls w ++ [c]).

(** ** Computations in the world *)

Definition M (A : Type) : Type := World -> result A * World.

Definition ret {A} (a : A) : M A := fun w => (Ret a, w).
Definition raise {A} (e : exn) : M A := fun w => (Raise e, w).
Definition bind {A B} (m : M A) (k : A -> M B) : M B :=
  fun w => match m w with
           | (Ret a, w') => k a w'
           | (Raise e, w') => (Raise e, w')
           end.
Definition lift {A} (r : result A) : M A := fun w => (r, w).

Declare Scope py_scope.
Delimit Scope py_scope with py.
Notation "x <- m ;; k" := (bind m (fun x => k))
  (at level 61, m at next level, right associativity) : py_scope.
Notation "m ;; k" := (bind m (fun _ => k))
  (at level 61, right associativity) : py_scope.
Open Scope py_scope.

(** [try: m  except pymysql.Error as e: h e] *)
Definition try_except_pymysql {A} (m : M A) (h : str -> M A) : M A :=
  fun w => match m w with
           | (Raise (pymysql_Error msg), w') => h msg w'
           | r => r
           end.

(** [try: m  finally: f] *)
Definition try_finally {A} (m : M A) (f : M unit) : M A :=
  fun w => match m w with
           | (r, w') =>
               match f w' with
               | (Ret _, w'') => (r, w'')
               | (Raise e, w'') => (Raise e, w'')
               end
           end.

(** *** The driver *)

(** Every call to the server is recorded and then meets its scheduled
    outcome. *)
Definition driver_call (c : Call) : M unit :=
  fun w =>
    let w1 := add_call w c in
    match faults w1 with
    | [] => (Ret tt, w1)
    | None :: rest => (Ret tt, set_faults w1 rest)
    | Some msg :: rest => (Raise (pymysql_Error msg), set_faults w1 rest)
    end.

(** [pymysql.connect(...)] *)
Definition pymysql_connect : M unit :=
  driver_call CConnect ;;
  fun w => (Ret tt, set_session w (Some (committed w))).

(** What [cursor.execute] leaves on the cursor: [lastrowid] and the row
    [fetchone()] returns. *)
Record Cursor : Type := mkCursor {
  lastrowid : Z;
  fetchone : option Product.t
}.

Definition closed_connection : str := lit "(0, '')".

(** The effect of a statement on the working copy of the session. *)
Definition run_stmt (s : Stmt) : M Cursor :=
  fun w =>
    match session w with
    | None => (Raise (pymysql_Error closed_connection), w)
    | Some t =>
        match s with
        | SelectProduct code =>
            (Ret (mkCursor 0
                    (List.find (fun p => collation w (Product.prd_code p) code)
                               (m_product t))), w)
        | InsertTxn dt emp store pos total ex =>
            let id := auto_increment w in
            let row := mkTxnRow id dt emp store pos total ex in
            (Ret (mkCursor id None),
             set_auto_increment
               (set_session w
                  (Some (mkTables (m_product t) (t_txn t ++ [row]) (t_txn_dtl t))))
               (id + 1))
        | InsertDtl trd dtl prd code name price tax =>
            let row := mkDtlRow trd dtl prd code name price tax in
            (Ret (mkCursor 0 None),
             set_session w
               (Some (mkTables (m_product t) (t_txn t) (t_txn_dtl t ++ [row]))))
        end
    end.

(** [cursor.execute(query, params)] *)
Definition cursor_execute (s : Stmt) : M Cursor :=
  driver_call (CExecute s) ;; run_stmt s.

(** [conn.commit()] *)
Definition conn_commit : M unit :=
  driver_call CCommit ;;
  fun w => match session w with
           | None => (Raise (pymysql_Error closed_connection), w)
           | Some t => (Ret tt, set_committed w t)
           end.

(** [conn.rollback()] *)
Definition conn_rollback : M unit :=
  driver_call CRollback ;;
  fun w => match session w with
           | None => (Raise (pymysql_Error closed_connection), w)
           | Some _ => (Ret tt, set_session w (Some (committed w)))
           end.

(** [conn.close()]: the working copy is dropped; errors of the goodbye
    packet are swallowed by the driver. *)
Definition conn_close : M unit :=
  fun w => (Ret tt, set_session (add_call w CClose) None).

(** [datetime.now()] *)
Definition datetime_now : M Z := fun w => (Ret (clock w), w).

(** [print(f"... {s}")] of a text that comes with the request or the row,
    on a UTF-8 standard output: the text must be encodable, or the call
    raises [UnicodeEncodeError]; what is written is not kept.  The fixed
    prefixes of the source are encodable, and so are numbers and the
    messages of the driver's errors, which the driver decoded itself: the
    other [print]s of the source cannot raise and are left out. *)
Definition py_print (s : str) : M unit :=
  fun w => if encodable s then (Ret tt, w) else (Raise ValueError, w).

(** ** Database *)

(** "データベース設定が不完全です" *)
Definition detail_config_incomplete : str :=
  [0x30c7; 0x30fc; 0x30bf; 0x30d9; 0x30fc; 0x30b9; 0x8a2d; 0x5b9a; 0x304c;
   0x4e0d; 0x5b8c; 0x5168; 0x3067; 0x3059]%N.

(** "データベースに接続できません" *)
Definition detail_cannot_connect : str :=
  [0x30c7; 0x30fc; 0x30bf; 0x30d9; 0x30fc; 0x30b9; 0x306b; 0x63a5; 0x7d9a;
   0x3067; 0x304d; 0x307e; 0x305b; 0x3093]%N.

(** [all([Config.DB_HOST, Config.DB_USER, Config.DB_PASSWORD, Config.DB_NAME])] *)
Definition config_all (c : Config.t) : bool :=
  str_truthy (Config.DB_HOST c) && str_truthy (Config.DB_USER c)
  && str_truthy (Config.DB_PASSWORD c) && str_truthy (Config.DB_NAME c).

(** [with get_db_connection() as conn: body].  The generator checks the
    configuration, connects, hands the connection to [body] at its [yield],
    and an exception of [body] re-enters the generator there: inside the
    [try], so [except pymysql.Error] sees it too.  [finally] closes the
    connection when there is one. *)
Definition get_db_connection {A} (body : M A) : M A :=
  fun w =>
    if negb (config_all (config w)) then
      raise (HTTPException HTTP_503_SERVICE_UNAVAILABLE detail_config_incomplete) w
    else
      match pymysql_connect w with
      | (Raise (pymysql_Error _), w1) =>
          (* conn is still None: nothing to close *)
          raise (HTTPException HTTP_503_SERVICE_UNAVAILABLE detail_cannot_connect) w1
      | (Raise e, w1) => (Raise e, w1)
      | (Ret _, w1) =>
          try_finally
            (try_except_pymysql body
               (fun _ => raise (HTTPException HTTP_503_SERVICE_UNAVAILABLE
                                              detail_cannot_connect)))
            conn_close w1
      end.

(** ** API endpoints *)

Module HealthResponse.
(** The dictionary [health_check] returns; [timestamp] is the instant whose
    ISO text the source sends. *)
Record t : Type := mk {
  status : str;
  service : str;
  version : str;
  timestamp : Z;
  db_configured : bool
}.
End HealthResponse.

(** [GET /]: [db_configured] is [bool(Config.DB_HOST and Config.DB_USER)]. *)
Definition health_check : M HealthResponse.t :=
  now <- datetime_now ;;
  fun w =>
    (Ret (HealthResponse.mk (lit "healthy") (lit "POS System API")
            (lit "2.0.0") now
            (str_truthy (Config.DB_HOST (config w))
             && str_truthy (Config.DB_USER (config w)))), w).

(** Values of a decoded JSON body, as far as [search_product] looks at
    them: only a [str] has [strip]. *)
Inductive pyobj : Type :=
| PyNone
| PyBool (b : bool)
| PyInt (n : Z)
| PyStr (s : str)
| PyOther.                       (* float, list, dict *)

Definition dict := list (str * pyobj).

(** [d.get(key, default)] *)
Fixpoint dict_get (d : dict) (key : str) (default : pyobj) : pyobj :=
  match d with
  | [] => default
  | (k, v) :: d' => if str_eqb k key then v else dict_get d' key default
  end.

(** [v.strip()] *)
Definition py_strip (v : pyobj) : result str :=
  match v with
  | PyStr s => Ret (strip s)
  | _ => Raise AttributeError
  end.

(** "商品コードが必要です" *)
Definition detail_code_required : str :=
  [0x5546; 0x54c1; 0x30b3; 0x30fc; 0x30c9; 0x304c; 0x5fc5; 0x8981; 0x3067;
   0x3059]%N.

(** The row unpacked into [Product]: it goes through the model's [gt=0]. *)
Definition Product_of_row (row : Product.t) : result Product.t :=
  if 0 <? Product.prd_price row then Ret row else Raise ValueError.

Definition search_product (request_body : dict) : M ProductSearchResponse.t :=
  product_code <- lift (py_strip (dict_get request_body (lit "code") (PyStr []))) ;;
  if negb (str_truthy product_code) then
    raise (HTTPException HTTP_400_BAD_REQUEST detail_code_required)
  else
    py_print product_code ;;
    get_db_connection
      (cursor <- cursor_execute (SelectProduct product_code) ;;
       match fetchone cursor with
       | Some result =>
           py_print (Product.prd_name result) ;;
           p <- lift (Product_of_row result) ;;
           ret (ProductSearchResponse.mk (Some p))
       | None => ret (ProductSearchResponse.mk None)
       end).

(** [x or "9999999999"] *)
Definition sentinel_emp_cd : str := lit "9999999999".

Definition or_sentinel (emp_cd : option str) : str :=
  match emp_cd with
  | Some (c :: s) => c :: s
  | _ => sentinel_emp_cd
  end.

(** "購入処理に失敗しました: " *)
Definition detail_purchase_failed : str :=
  [0x8cfc; 0x5165; 0x51e6; 0x7406; 0x306b; 0x5931; 0x6557; 0x3057; 0x307e;
   0x3057; 0x305f; 0x3a; 0x20]%N.

Definition tax_cd_10 : str := lit "10".

(** [for _ in range(n): cursor.execute(insert_dtl, ...); dtl_id += 1];
    the value is [dtl_id] after the loop. *)
Fixpoint insert_units (trd_id : Z) (item : PurchaseItem.t) (n : nat)
         (dtl_id : Z) : M Z :=
  match n with
  | O => ret dtl_id
  | S n' =>
      cursor_execute
        (InsertDtl trd_id dtl_id (PurchaseItem.prd_id item)
                   (PurchaseItem.prd_code item) (PurchaseItem.prd_name item)
                   (PurchaseItem.prd_price item) tax_cd_10) ;;
      insert_units trd_id item n' (dtl_id + 1)
  end.

(** [for item in request.items: for _ in range(item.quantity): ...] *)
Fixpoint insert_items (trd_id : Z) (items : list PurchaseItem.t)
         (dtl_id : Z) : M Z :=
  match items with
  | [] => ret dtl_id
  | item :: rest =>
      d <- insert_units trd_id item (Z.to_nat (PurchaseItem.quantity item)) dtl_id ;;
      insert_items trd_id rest d
  end.

(** The [try] block of [purchase]. *)
Definition purchase_try (request : PurchaseRequest.t) (total ex_tax : Z)
  : M PurchaseResponse.t :=
  let emp_cd := or_sentinel (PurchaseRequest.emp_cd request) in
  now <- datetime_now ;;
  cursor <- cursor_execute
              (InsertTxn now emp_cd (PurchaseRequest.store_cd request)
                         (PurchaseRequest.pos_no request) total ex_tax) ;;
  let trd_id := lastrowid cursor in
  insert_items trd_id (PurchaseRequest.items request) 1 ;;
  conn_commit ;;
  ret (PurchaseResponse.mk true total ex_tax (Some trd_id)).

Definition purchase (request : PurchaseRequest.t) : M PurchaseResponse.t :=
  let total := total_amount (PurchaseRequest.items request) in
  ex_tax <- lift (total_amount_ex_tax (PurchaseRequest.items request)) ;;
  get_db_connection
    (try_except_pymysql
       (purchase_try request total ex_tax)
       (fun e =>
          conn_rollback ;;
          raise (HTTPException HTTP_500_INTERNAL_SERVER_ERROR
                               (detail_purchase_failed ++ e)))).

(** ** The request contract of [POST /purchase] *)

(** A key of the JSON body: left out, [null], or a value of the declared
    type.  Bodies that do not decode, are not objects or carry a value of
    another type are answered by the framework and are not modelled. *)
Inductive field (A : Type) : Type :=
| Missing
| Null
| Value (a : A).
Arguments Missing {A}.
Arguments Null {A}.
Arguments Value {A} a.

Module Body.
Record t : Type := mk {
  emp_cd : field str;
  store_cd : field str;
  pos_no : field str;
  items : field (list PurchaseItem.t)
}.
End Body.

(** A string under [max_length]: to count its characters the validator
    needs it as UTF-8, so a string holding a surrogate is refused; then the
    length is checked.  (A [str] field without a constraint, such as
    [prd_code] and [prd_name], is taken as it comes.) *)
Definition constrained_str (s : str) : bool :=
  encodable s && (len s <=? 20).

(** [str = Field(default=d, max_length=20)] *)
Definition str_field (d : str) (f : field str) : result str :=
  match f with
  | Missing => Ret d
  | Null => Raise RequestValidationError
  | Value s => if constrained_str s then Ret s else Raise RequestValidationError
  end.

(** [Optional[str] = Field(default="", max_length=20)] *)
Definition optional_str_field (f : field str) : result (option str) :=
  match f with
  | Missing => Ret (Some [])
  | Null => Ret None
  | Value s =>
      if constrained_str s then Ret (Some s) else Raise RequestValidationError
  end.

(** [List[PurchaseItem] = Field(..., min_items=1)] *)
Definition items_field (f : field (list PurchaseItem.t))
  : result (list PurchaseItem.t) :=
  match f with
  | Value l =>
      if (1 <=? Z.of_nat (List.length l)) && List.forallb PurchaseItem.valid l
      then Ret l else Raise RequestValidationError
  | _ => Raise RequestValidationError
  end.

(** Building the [PurchaseRequest] from the body. *)
Definition parse_request (b : Body.t) : result PurchaseRequest.t :=
  ebind (optional_str_field (Body.emp_cd b)) (fun emp =>
  ebind (str_field (lit "30") (Body.store_cd b)) (fun store =>
  ebind (str_field (lit "90") (Body.pos_no b)) (fun pos =>
  ebind (items_field (Body.items b)) (fun its =>
  Ret (PurchaseRequest.mk emp store pos its))))).

(** [@app.post("/purchase")]: the body is validated, then the handler runs. *)
Definition post_purchase (b : Body.t) : M PurchaseResponse.t :=
  request <- lift (parse_request b) ;;
  purchase request.

(** ** What the totals and the detail rows are compared with *)

(** Σ over a list, by recursion on the list. *)
Fixpoint sigma {A} (f : A -> Z) (l : list A) : Z :=
  match l with
  | [] => 0
  | x :: l' => f x + sigma f l'
  end.

(** The floor of the rational number [price / 1.1 = 10 * price / 11]. *)
Definition exact_floor_div_1_1 (price : Z) : Z := (10 * price) / 11.

(** The code's unit price is the exact floor, or one less on a multiple
    of 11. *)
Definition floor_near_exact (price : Z) : bool :=
  match unit_price_ex_tax price with
  | Ret u =>
      (u =? exact_floor_div_1_1 price)
      || ((price mod 11 =? 0) && (u =? exact_floor_div_1_1 price - 1))
  | Raise _ => false
  end.

(** Units bought: one detail row each. *)
Definition units (items : list PurchaseItem.t) : nat :=
  List.fold_right (fun item n => (Z.to_nat (PurchaseItem.quantity item) + n)%nat)
                  O items.

(** What a detail row takes from its item. *)
Definition item_columns (item : PurchaseItem.t) : Z * str * str * Z :=
  (PurchaseItem.prd_id item, PurchaseItem.prd_code item,
   PurchaseItem.prd_name item, PurchaseItem.prd_price item).

Definition row_columns (r : DtlRow) : Z * str * str * Z :=
  (PRD_ID r, PRD_CODE r, PRD_NAME r, PRD_PRICE r).

(** The rows one item adds, starting at [dtl_id]. *)
Fixpoint unit_rows (trd_id : Z) (item : PurchaseItem.t) (n : nat) (dtl_id : Z)
  : list DtlRow :=
  match n with
  | O => []
  | S n' =>
      mkDtlRow trd_id dtl_id (PurchaseItem.prd_id item)
               (PurchaseItem.prd_code item) (PurchaseItem.prd_name item)
               (PurchaseItem.prd_price item) tax_cd_10
      :: unit_rows trd_id item n' (dtl_id + 1)
  end.

Fixpoint detail_rows (trd_id : Z) (items : list PurchaseItem.t) (dtl_id : Z)
  : list DtlRow :=
  match items with
  | [] => []
  | item :: rest =>
      let n := Z.to_nat (PurchaseItem.quantity item) in
      unit_rows trd_id item n dtl_id
      ++ detail_rows trd_id rest (dtl_id + Z.of_nat n)
  end.

(** A string that neither starts nor ends with whitespace. *)
Definition trimmed (s : str) : Prop :=
  match s with [] => True | c :: _ => isspace c = false end
  /\ match List.rev s with [] => True | c :: _ => isspace c = false end.

(** A string made of whitespace only, and not empty. *)
Definition whitespace_only (s : str) : Prop :=
  s <> [] /\ List.forallb isspace s = true.

(** The connection is open. *)
Definition live (w : World) : Prop := session w <> None.

(** The outcome the next driver call meets, and the world after it. *)
Definition next_outcome (w : World) : result unit :=
  match faults w with
  | Some msg :: _ => Raise (pymysql_Error msg)
  | _ => Ret tt
  end.

Definition after_call (w : World) (c : Call) : World :=
  set_faults (add_call w c) (List.tl (faults w)).

(** The [k]-th driver call from now is let through. *)
Definition call_passes (k : nat) (w : World) : Prop :=
  List.nth k (faults w) None = None.


(** A body that breaks the contract of [PurchaseRequest]. *)
Definition breaks_contract (b : Body.t) : Prop :=
  (exists s, Body.emp_cd b = Value s /\ 20 < len s)
  \/ (exists s, Body.store_cd b = Value s /\ 20 < len s)
  \/ (exists s, Body.pos_no b = Value s /\ 20 < len s)
  \/ (Body.items b = Missing \/ Body.items b = Null)
  \/ Body.items b = Value []
  \/ (exists l item, Body.items b = Value l /\ In item l
        /\ (PurchaseItem.prd_price item <= 0
            \/ PurchaseItem.quantity item < 1
            \/ 9999 < PurchaseItem.quantity item)).



(** The header a purchase writes in world [w]. *)
Definition header_row (request : PurchaseRequest.t) (ex_tax : Z) (w : World)
  : TxnRow :=
  mkTxnRow (auto_increment w) (clock w)
           (or_sentinel (PurchaseRequest.emp_cd request))
           (PurchaseRequest.store_cd request) (PurchaseRequest.pos_no request)
           (total_amount (PurchaseRequest.items request)) ex_tax.


(** Every way a body is refused by [parse_request]. *)
Definition rejected (b : Body.t) : Prop :=
  breaks_contract b \/ Body.store_cd b = Null \/ Body.pos_no b = Null
  \/ (exists s, Body.emp_cd b = Value s /\ encodable s = false)
  \/ (exists s, Body.store_cd b = Value s /\ encodable s = false)
  \/ (exists s, Body.pos_no b = Value s /\ encodable s = false).

(** ** A small store to run the endpoints on *)

Module Example.

Definition cfg : Config.t :=
  Config.mk (lit "db.example") (lit "pos") (lit "secret") (lit "pos_db") 3306.

Definition tea : Product.t := Product.mk 1 (lit "4901") (lit "tea") 108.

(** A configured store with one product and the given outcomes to come. *)
Definition world (fs : list (option str)) : World :=
  mkWorld cfg (mkTables [tea] [] []) 1 str_eqb 20240101 None fs [].

(** The same store with no host configured. *)
Definition unconfigured : World :=
  mkWorld (Config.mk [] (lit "pos") (lit "secret") (lit "pos_db") 3306)
          (mkTables [tea] [] []) 1 str_eqb 20240101 None [] [].

Definition item (price qty : Z) : PurchaseItem.t :=
  PurchaseItem.mk 1 (lit "4901") (lit "tea") price qty.

Definition request (emp_cd : option str) : PurchaseRequest.t :=
  PurchaseRequest.mk emp_cd (lit "30") (lit "90") [item 108 2; item 220 1].

Definition body (emp_cd : field str) (items : list PurchaseItem.t) : Body.t :=
  Body.mk emp_cd Missing Missing (Value items).

End Example.

(** ** Arithmetic of the totals *)

Section Sums.

Lemma fold_left_add_acc (l : list Z) (a : Z) :
  List.fold_left Z.add l a = a + List.fold_left Z.add l 0.
Proof.
  revert a; induction l as [|x l IH]; intros a; simpl.
  - lia.
  - rewrite (IH (a + x)), (IH x). lia.
Qed.

Lemma sum_cons (x : Z) (l : list Z) : sum (x :: l) = x + sum l.
Proof. unfold sum; simpl. apply fold_left_add_acc. Qed.

Lemma sum_map_sigma {A} (f : A -> Z) (l : list A) :
  sum (List.map f l) = sigma f l.
Proof.
  induction l as [|x l IH]; [reflexivity|].
  simpl List.map. rewrite sum_cons, IH. reflexivity.
Qed.

Lemma sum_gen_ret {A} (f : A -> result Z) (g : A -> Z) (l : list A) :
  (forall x, In x l -> f x = Ret (g x)) ->
  forall acc, sum_gen f l acc = Ret (acc + sigma g l).
Proof.
  induction l as [|x l IH]; intros Hf acc; simpl.
  - f_equal; lia.
  - rewrite (Hf x (or_introl eq_refl)); simpl.
    rewrite IH by (intros y Hy; apply Hf; right; exact Hy).
    f_equal; lia.
Qed.

Lemma sum_gen_inv {A} (f : A -> result Z) (l : list A) :
  forall acc v, sum_gen f l acc = Ret v ->
  exists g, (forall x, In x l -> f x = Ret (g x)) /\ v = acc + sigma g l.
Proof.
  induction l as [|x l IH]; intros acc v H; simpl in H.
  - exists (fun _ => 0). split; [intros ? []|]. inversion H; simpl; lia.
  - destruct (f x) as [fx|e] eqn:Efx; simpl in H; [|discriminate].
    destruct (IH _ _ H) as (g & Hg & Hv).
    (* [f] is a function, so [g] may be taken to be [f] itself *)
    exists (fun y => match f y with Ret u => u | Raise _ => 0 end). split.
    + intros y [<-|Hy]; [rewrite Efx; reflexivity|].
      rewrite (Hg y Hy); reflexivity.
    + simpl. rewrite Efx. rewrite Hv.
      assert (Hs : sigma g l =
                   sigma (fun y => match f y with Ret u => u | Raise _ => 0 end) l).
      { clear -Hg. induction l as [|y l IHl]; [reflexivity|]. simpl.
        rewrite (Hg y (or_introl eq_refl)).
        rewrite IHl by (intros z Hz; apply Hg; right; exact Hz). reflexivity. }
      rewrite Hs. lia.
Qed.

Lemma exact_floor_div_1_1_spec (price : Z) :
  11 * exact_floor_div_1_1 price <= 10 * price
  < 11 * (exact_floor_div_1_1 price + 1).
Proof.
  unfold exact_floor_div_1_1.
  pose proof (Z.div_mod (10 * price) 11 ltac:(lia)).
  pose proof (Z.mod_pos_bound (10 * price) 11 ltac:(lia)). lia.
Qed.

(** The literal is the binary64 nearest to 11/10: within half a unit in
    the last place, [2^-53]. *)
Lemma lit_1_1_nearest :
  Float.lit_1_1 = S754_finite false 4953959590107546 (-52)
  /\ Z.abs (10 * 4953959590107546 - 11 * 2 ^ 52) * 2 <= 10.
Proof. split; [reflexivity|]. vm_compute. discriminate. Qed.

(** It is also what binary64 division gives for [11 / 10]. *)
Lemma lit_1_1_is_11_div_10 :
  ebind (Float.of_int 11) (fun a =>
    ebind (Float.of_int 10) (fun b =>
      Ret (SFdiv Float.prec Float.emax a b))) = Ret Float.lit_1_1.
Proof. vm_compute. reflexivity. Qed.

End Sums.

(** ** The driver, call by call *)

Section Driver.

Lemma driver_call_eq (c : Call) (w : World) :
  driver_call c w = (next_outcome w, after_call w c).
Proof.
  unfold driver_call, next_outcome, after_call.
  destruct w as [cf cm ai co ck se fs cs]; simpl.
  destruct fs as [|[m|] fs]; reflexivity.
Qed.

Lemma after_call_committed w c : committed (after_call w c) = committed w.
Proof. reflexivity. Qed.

Lemma after_call_session w c : session (after_call w c) = session w.
Proof. reflexivity. Qed.

Lemma after_call_calls w c : calls (after_call w c) = calls w ++ [c].
Proof. reflexivity. Qed.


(** A statement changes the working copy only. *)
Lemma run_stmt_committed s w :
  committed (snd (run_stmt s w)) = committed w.
Proof.
  unfold run_stmt. destruct (session w); [destruct s|]; reflexivity.
Qed.

Lemma run_stmt_live s w : live w -> live (snd (run_stmt s w)).
Proof.
  unfold run_stmt, live. destruct (session w) as [t|] eqn:E.
  - destruct s; simpl; intros _; try discriminate. rewrite E; discriminate.
  - simpl. rewrite E. auto.
Qed.

Lemma run_stmt_faults s w : faults (snd (run_stmt s w)) = faults w.
Proof.
  unfold run_stmt. destruct (session w); [destruct s|]; reflexivity.
Qed.

Lemma run_stmt_calls s w : calls (snd (run_stmt s w)) = calls w.
Proof.
  unfold run_stmt. destruct (session w); [destruct s|]; reflexivity.
Qed.

Lemma cursor_execute_eq s w :
  cursor_execute s w =
  match next_outcome w with
  | Ret _ => run_stmt s (after_call w (CExecute s))
  | Raise e => (Raise e, after_call w (CExecute s))
  end.
Proof.
  unfold cursor_execute, bind. rewrite driver_call_eq.
  destruct (next_outcome w); reflexivity.
Qed.

Lemma cursor_execute_committed s w :
  committed (snd (cursor_execute s w)) = committed w.
Proof.
  rewrite cursor_execute_eq. destruct (next_outcome w); simpl.
  - rewrite run_stmt_committed. reflexivity.
  - reflexivity.
Qed.

Lemma cursor_execute_live s w : live w -> live (snd (cursor_execute s w)).
Proof.
  intros H. rewrite cursor_execute_eq. destruct (next_outcome w); simpl.
  - apply run_stmt_live. exact H.
  - exact H.
Qed.

Lemma cursor_execute_faults s w :
  faults (snd (cursor_execute s w)) = List.tl (faults w).
Proof.
  rewrite cursor_execute_eq. destruct (next_outcome w); simpl.
  - rewrite run_stmt_faults. reflexivity.
  - reflexivity.
Qed.

Lemma cursor_execute_calls s w :
  calls (snd (cursor_execute s w)) = calls w ++ [CExecute s].
Proof.
  rewrite cursor_execute_eq. destruct (next_outcome w); simpl.
  - rewrite run_stmt_calls. reflexivity.
  - reflexivity.
Qed.

Lemma insert_dtl_session trd dtl prd code name price tax w c w' t :
  session w = Some t ->
  cursor_execute (InsertDtl trd dtl prd code name price tax) w = (Ret c, w') ->
  session w' =
  Some (mkTables (m_product t) (t_txn t)
          (t_txn_dtl t ++ [mkDtlRow trd dtl prd code name price tax])).
Proof.
  intros Hs. rewrite cursor_execute_eq.
  destruct (next_outcome w); [|discriminate].
  unfold run_stmt. rewrite after_call_session, Hs.
  intros H; inversion H; reflexivity.
Qed.

Lemma insert_txn_session dt emp store pos total ex w c w' t :
  session w = Some t ->
  cursor_execute (InsertTxn dt emp store pos total ex) w = (Ret c, w') ->
  lastrowid c = auto_increment w
  /\ session w' =
     Some (mkTables (m_product t)
             (t_txn t ++ [mkTxnRow (auto_increment w) dt emp store pos total ex])
             (t_txn_dtl t)).
Proof.
  intros Hs. rewrite cursor_execute_eq.
  destruct (next_outcome w); [|discriminate].
  unfold run_stmt. rewrite after_call_session, Hs.
  intros H; inversion H; split; reflexivity.
Qed.

(** A driver error is the only way an insert raises on an open connection. *)
Lemma cursor_execute_raise s w e w' :
  live w -> cursor_execute s w = (Raise e, w') ->
  exists msg, e = pymysql_Error msg.
Proof.
  intros Hl. rewrite cursor_execute_eq. unfold next_outcome.
  destruct (faults w) as [|[m|] fs].
  - unfold run_stmt. rewrite after_call_session.
    destruct (session w) eqn:E; [destruct s; discriminate|].
    exfalso; apply Hl; exact E.
  - intros H; inversion H. eexists; reflexivity.
  - unfold run_stmt. rewrite after_call_session.
    destruct (session w) eqn:E; [destruct s; discriminate|].
    exfalso; apply Hl; exact E.
Qed.

End Driver.

(** ** The detail loop *)

Section DetailLoop.

Variable trd_id : Z.

Lemma insert_units_committed item n : forall d w,
  committed (snd (insert_units trd_id item n d w)) = committed w.
Proof.
  induction n as [|n IH]; intros d w; [reflexivity|].
  simpl. unfold bind.
  pose proof (cursor_execute_committed
                (InsertDtl trd_id d (PurchaseItem.prd_id item)
                   (PurchaseItem.prd_code item) (PurchaseItem.prd_name item)
                   (PurchaseItem.prd_price item) tax_cd_10) w) as H1.
  destruct (cursor_execute _ w) as [[c|e] w1]; simpl in H1.
  - rewrite IH. exact H1.
  - exact H1.
Qed.

Lemma insert_units_live item n : forall d w,
  live w -> live (snd (insert_units trd_id item n d w)).
Proof.
  induction n as [|n IH]; intros d w Hl; [exact Hl|].
  simpl. unfold bind.
  pose proof (cursor_execute_live
                (InsertDtl trd_id d (PurchaseItem.prd_id item)
                   (PurchaseItem.prd_code item) (PurchaseItem.prd_name item)
                   (PurchaseItem.prd_price item) tax_cd_10) w Hl) as H1.
  destruct (cursor_execute _ w) as [[c|e] w1]; simpl in *.
  - apply IH. exact H1.
  - exact H1.
Qed.

Lemma insert_units_raise item n : forall d w e w',
  live w -> insert_units trd_id item n d w = (Raise e, w') ->
  exists msg, e = pymysql_Error msg.
Proof.
  induction n as [|n IH]; intros d w e w' Hl H; [discriminate|].
  simpl in H. unfold bind in H.
  pose proof (cursor_execute_live
                (InsertDtl trd_id d (PurchaseItem.prd_id item)
                   (PurchaseItem.prd_code item) (PurchaseItem.prd_name item)
                   (PurchaseItem.prd_price item) tax_cd_10) w Hl) as H1.
  destruct (cursor_execute _ w) as [[c|e1] w1] eqn:E; simpl in H1.
  - eapply IH; [exact H1 | exact H].
  - inversion H; subst. eapply cursor_execute_raise; [exact Hl | exact E].
Qed.

(** A loop that ends has appended one row per unit to the working copy. *)
Lemma insert_units_ret item n : forall d w d' w' t,
  session w = Some t ->
  insert_units trd_id item n d w = (Ret d', w') ->
  d' = d + Z.of_nat n
  /\ session w' =
     Some (mkTables (m_product t) (t_txn t)
             (t_txn_dtl t ++ unit_rows trd_id item n d)).
Proof.
  induction n as [|n IH]; intros d w d' w' t Hs H.
  - inversion H; subst. simpl. rewrite app_nil_r.
    split; [lia|]. rewrite Hs. destruct t; reflexivity.
  - simpl in H. unfold bind in H.
    destruct (cursor_execute _ w) as [[c|e1] w1] eqn:E; [|discriminate].
    pose proof (insert_dtl_session _ _ _ _ _ _ _ _ _ _ _ Hs E) as Hs1.
    destruct (IH _ _ _ _ _ Hs1 H) as [Hd Hs']. split; [lia|].
    rewrite Hs'. simpl. rewrite <- app_assoc. reflexivity.
Qed.

Lemma insert_items_committed items : forall d w,
  committed (snd (insert_items trd_id items d w)) = committed w.
Proof.
  induction items as [|item rest IH]; intros d w; [reflexivity|].
  simpl. unfold bind.
  pose proof (insert_units_committed item
                (Z.to_nat (PurchaseItem.quantity item)) d w) as H1.
  destruct (insert_units _ _ _ d w) as [[d1|e] w1]; simpl in H1.
  - rewrite IH. exact H1.
  - exact H1.
Qed.

Lemma insert_items_live items : forall d w,
  live w -> live (snd (insert_items trd_id items d w)).
Proof.
  induction items as [|item rest IH]; intros d w Hl; [exact Hl|].
  simpl. unfold bind.
  pose proof (insert_units_live item
                (Z.to_nat (PurchaseItem.quantity item)) d w Hl) as H1.
  destruct (insert_units _ _ _ d w) as [[d1|e] w1]; simpl in H1.
  - apply IH. exact H1.
  - exact H1.
Qed.

Lemma insert_items_raise items : forall d w e w',
  live w -> insert_items trd_id items d w = (Raise e, w') ->
  exists msg, e = pymysql_Error msg.
Proof.
  induction items as [|item rest IH]; intros d w e w' Hl H; [discriminate|].
  simpl in H. unfold bind in H.
  pose proof (insert_units_live item
                (Z.to_nat (PurchaseItem.quantity item)) d w Hl) as H1.
  destruct (insert_units _ _ _ d w) as [[d1|e1] w1] eqn:E; simpl in H1.
  - eapply IH; [exact H1 | exact H].
  - inversion H; subst. eapply insert_units_raise; [exact Hl | exact E].
Qed.

Lemma insert_items_ret items : forall d w d' w' t,
  session w = Some t ->
  insert_items trd_id items d w = (Ret d', w') ->
  d' = d + Z.of_nat (units items)
  /\ session w' =
     Some (mkTables (m_product t) (t_txn t)
             (t_txn_dtl t ++ detail_rows trd_id items d)).
Proof.
  induction items as [|item rest IH]; intros d w d' w' t Hs H.
  - inversion H; subst. simpl. rewrite app_nil_r.
    split; [lia|]. rewrite Hs. destruct t; reflexivity.
  - simpl in H. unfold bind in H.
    destruct (insert_units _ _ _ d w) as [[d1|e1] w1] eqn:E; [|discriminate].
    destruct (insert_units_ret _ _ _ _ _ _ _ Hs E) as [Hd1 Hs1].
    destruct (IH _ _ _ _ _ Hs1 H) as [Hd Hs']. split.
    + simpl. lia.
    + rewrite Hs'. simpl. rewrite <- app_assoc. subst d1. reflexivity.
Qed.

End DetailLoop.

(** ** The rows a purchase leaves *)

Section DetailRows.

Variable trd_id : Z.

Lemma unit_rows_length item n d :
  List.length (unit_rows trd_id item n d) = n.
Proof. revert d; induction n as [|n IH]; intros d; simpl; [|rewrite IH]; reflexivity. Qed.

Lemma detail_rows_length items d :
  List.length (detail_rows trd_id items d) = units items.
Proof.
  revert d; induction items as [|item rest IH]; intros d; simpl; [reflexivity|].
  rewrite length_app, unit_rows_length, IH. reflexivity.
Qed.

(** The counter runs through [d], [d+1], ... without a gap. *)
Lemma unit_rows_dtl_id item n : forall d k,
  d = Z.of_nat k ->
  List.map DTL_ID (unit_rows trd_id item n d) = List.map Z.of_nat (List.seq k n).
Proof.
  induction n as [|n IH]; intros d k Hd; simpl; [reflexivity|].
  rewrite (IH (d + 1) (S k)) by lia. subst d. reflexivity.
Qed.

Lemma detail_rows_dtl_id items : forall d k,
  d = Z.of_nat k ->
  List.map DTL_ID (detail_rows trd_id items d)
  = List.map Z.of_nat (List.seq k (units items)).
Proof.
  induction items as [|item rest IH]; intros d k Hd; simpl; [reflexivity|].
  rewrite map_app, seq_app, map_app.
  rewrite (unit_rows_dtl_id item _ d k Hd).
  rewrite (IH _ (k + Z.to_nat (PurchaseItem.quantity item))%nat) by lia.
  reflexivity.
Qed.

(** The rows follow the items in the order submitted, one per unit. *)
Lemma unit_rows_columns item n d :
  List.map row_columns (unit_rows trd_id item n d)
  = List.repeat (item_columns item) n.
Proof.
  revert d; induction n as [|n IH]; intros d; simpl; [reflexivity|].
  rewrite IH. reflexivity.
Qed.

Lemma detail_rows_columns items d :
  List.map row_columns (detail_rows trd_id items d)
  = List.flat_map
      (fun item => List.repeat (item_columns item)
                     (Z.to_nat (PurchaseItem.quantity item))) items.
Proof.
  revert d; induction items as [|item rest IH]; intros d; simpl; [reflexivity|].
  rewrite map_app, unit_rows_columns, IH. reflexivity.
Qed.

Lemma unit_rows_owner item n d :
  Forall (fun r => dtl_TRD_ID r = trd_id /\ TAX_CD r = tax_cd_10)
         (unit_rows trd_id item n d).
Proof.
  revert d; induction n as [|n IH]; intros d; simpl; constructor; auto.
Qed.

Lemma detail_rows_owner items d :
  Forall (fun r => dtl_TRD_ID r = trd_id /\ TAX_CD r = tax_cd_10)
         (detail_rows trd_id items d).
Proof.
  revert d; induction items as [|item rest IH]; intros d; simpl; [constructor|].
  apply Forall_app; split; [apply unit_rows_owner|apply IH].
Qed.

End DetailRows.

(** Under the contract every quantity is positive, so the units are the sum
    of the quantities. *)
Lemma units_sigma_quantity items :
  List.forallb PurchaseItem.valid items = true ->
  Z.of_nat (units items) = sigma PurchaseItem.quantity items.
Proof.
  induction items as [|item rest IH]; intros H; simpl in *; [reflexivity|].
  apply andb_true_iff in H as [Hi Hr]. specialize (IH Hr).
  unfold PurchaseItem.valid in Hi.
  apply andb_true_iff in Hi as [Hi _]. apply andb_true_iff in Hi as [_ Hq].
  apply Z.ltb_lt in Hq. lia.
Qed.

Lemma valid_items request :
  PurchaseRequest.valid request = true ->
  List.forallb PurchaseItem.valid (PurchaseRequest.items request) = true.
Proof.
  unfold PurchaseRequest.valid. intros H.
  apply andb_true_iff in H as [_ H]. exact H.
Qed.

(** ** The transaction of [purchase] *)

Section Transaction.

Lemma conn_commit_eq w :
  conn_commit w =
  match next_outcome w with
  | Ret _ =>
      match session w with
      | None => (Raise (pymysql_Error closed_connection), after_call w CCommit)
      | Some t => (Ret tt, set_committed (after_call w CCommit) t)
      end
  | Raise e => (Raise e, after_call w CCommit)
  end.
Proof.
  unfold conn_commit, bind. rewrite driver_call_eq.
  destruct (next_outcome w); reflexivity.
Qed.

Lemma conn_rollback_eq w :
  conn_rollback w =
  match next_outcome w with
  | Ret _ =>
      match session w with
      | None => (Raise (pymysql_Error closed_connection), after_call w CRollback)
      | Some _ =>
          (Ret tt, set_session (after_call w CRollback) (Some (committed w)))
      end
  | Raise e => (Raise e, after_call w CRollback)
  end.
Proof.
  unfold conn_rollback, bind. rewrite driver_call_eq.
  destruct (next_outcome w); reflexivity.
Qed.

Lemma pymysql_connect_eq w :
  pymysql_connect w =
  match next_outcome w with
  | Ret _ => (Ret tt, set_session (after_call w CConnect) (Some (committed w)))
  | Raise e => (Raise e, after_call w CConnect)
  end.
Proof.
  unfold pymysql_connect, bind. rewrite driver_call_eq.
  destruct (next_outcome w); reflexivity.
Qed.


Lemma next_outcome_raise w e :
  next_outcome w = Raise e -> exists msg, e = pymysql_Error msg.
Proof.
  unfold next_outcome. destruct (faults w) as [|[m|] fs]; try discriminate.
  intros H; inversion H; eexists; reflexivity.
Qed.

Lemma conn_rollback_committed w :
  committed (snd (conn_rollback w)) = committed w.
Proof.
  rewrite conn_rollback_eq.
  destruct (next_outcome w); [destruct (session w)|]; reflexivity.
Qed.

Variable request : PurchaseRequest.t.
Variables total ex_tax : Z.

(** The header the [try] block sends, and the tables a commit publishes. *)
Lemma purchase_try_ret w resp w' t :
  session w = Some t ->
  purchase_try request total ex_tax w = (Ret resp, w') ->
  resp = PurchaseResponse.mk true total ex_tax (Some (auto_increment w))
  /\ committed w' =
     mkTables (m_product t)
       (t_txn t ++ [mkTxnRow (auto_increment w) (clock w)
                      (or_sentinel (PurchaseRequest.emp_cd request))
                      (PurchaseRequest.store_cd request)
                      (PurchaseRequest.pos_no request) total ex_tax])
       (t_txn_dtl t
        ++ detail_rows (auto_increment w) (PurchaseRequest.items request) 1).
Proof.
  intros Hs H. unfold purchase_try, bind, datetime_now in H.
  destruct (cursor_execute _ w) as [[c|e] w1] eqn:E1; [|discriminate].
  destruct (insert_txn_session _ _ _ _ _ _ _ _ _ _ Hs E1) as [Hid Hs1].
  destruct (insert_items _ _ _ w1) as [[d|e] w2] eqn:E2; [|discriminate].
  destruct (insert_items_ret _ _ _ _ _ _ _ Hs1 E2) as [_ Hs2].
  rewrite conn_commit_eq, Hs2 in H.
  destruct (next_outcome w2); [|discriminate].
  unfold ret in H. inversion H; subst. rewrite Hid. split; reflexivity.
Qed.

(** Whatever the [try] block raises is the driver's error, and nothing has
    been published. *)
Lemma purchase_try_raise w e w' :
  live w ->
  purchase_try request total ex_tax w = (Raise e, w') ->
  (exists msg, e = pymysql_Error msg)
  /\ committed w' = committed w /\ live w'.
Proof.
  intros Hl H. unfold purchase_try, bind, datetime_now in H.
  match type of H with context [cursor_execute ?s w] =>
    pose proof (cursor_execute_committed s w) as Hc1;
    pose proof (cursor_execute_live s w Hl) as Hl1;
    destruct (cursor_execute s w) as [[c|e1] w1] eqn:E1
  end; simpl in Hc1, Hl1.
  - match type of H with context [insert_items ?a ?b ?c w1] =>
      pose proof (insert_items_committed a b c w1) as Hc2;
      pose proof (insert_items_live a b c w1 Hl1) as Hl2;
      destruct (insert_items a b c w1) as [[d|e2] w2] eqn:E2
    end; simpl in Hc2, Hl2.
    + rewrite conn_commit_eq in H.
      destruct (next_outcome w2) as [u|e3] eqn:E3.
      * destruct (session w2) eqn:Es; [discriminate|].
        exfalso; apply Hl2; exact Es.
      * inversion H; subst. split; [eapply next_outcome_raise; exact E3|].
        split; [simpl; congruence|exact Hl2].
    + inversion H; subst.
      split; [eapply insert_items_raise; [exact Hl1|exact E2]|].
      split; [congruence|exact Hl2].
  - inversion H; subst.
    split; [eapply cursor_execute_raise; [exact Hl|exact E1]|].
    split; [congruence|exact Hl1].
Qed.

End Transaction.

(** A purchase that answers has published exactly one header and the detail
    rows of its items. *)
Lemma purchase_ret request w resp w' :
  purchase request w = (Ret resp, w') ->
  exists ex,
    total_amount_ex_tax (PurchaseRequest.items request) = Ret ex
    /\ resp = PurchaseResponse.mk true
                (total_amount (PurchaseRequest.items request)) ex
                (Some (auto_increment w))
    /\ committed w' =
       mkTables (m_product (committed w))
         (t_txn (committed w)
          ++ [mkTxnRow (auto_increment w) (clock w)
                (or_sentinel (PurchaseRequest.emp_cd request))
                (PurchaseRequest.store_cd request)
                (PurchaseRequest.pos_no request)
                (total_amount (PurchaseRequest.items request)) ex])
         (t_txn_dtl (committed w)
          ++ detail_rows (auto_increment w) (PurchaseRequest.items request) 1).
Proof.
  unfold purchase, bind, lift.
  destruct (total_amount_ex_tax _) as [ex|e0]; [|discriminate].
  unfold get_db_connection. destruct (config_all (config w)); [|discriminate].
  simpl negb. cbv iota. rewrite pymysql_connect_eq.
  destruct (next_outcome w) as [u|e1] eqn:E1.
  2:{ destruct (next_outcome_raise _ _ E1) as [m ->]. discriminate. }
  set (w1 := set_session (after_call w CConnect) (Some (committed w))).
  unfold try_finally, try_except_pymysql at 1.
  destruct (try_except_pymysql _ _ w1) as [r2 w2] eqn:E2.
  unfold try_except_pymysql in E2.
  destruct (purchase_try _ _ _ w1) as [[resp1|e3] w3] eqn:E3.
  - inversion E2; subst r2 w2. simpl. intros H; inversion H; subst.
    destruct (purchase_try_ret _ _ _ w1 _ _ (committed w) eq_refl E3) as [Hr Hc].
    exists ex. split; [reflexivity|]. split; [exact Hr|exact Hc].
  - assert (Hl1 : live w1) by (unfold live, w1; simpl; discriminate).
    destruct (purchase_try_raise _ _ _ _ _ _ Hl1 E3) as [[m ->] _].
    unfold bind in E2. rewrite conn_rollback_eq in E2.
    destruct (next_outcome w3) as [u3|e4] eqn:E4.
    + destruct (session w3); inversion E2; subst; simpl; discriminate.
    + destruct (next_outcome_raise _ _ E4) as [m4 ->].
      inversion E2; subst; simpl; discriminate.
Qed.

(** A purchase that raises has published nothing. *)
Lemma purchase_raise_committed request w e w' :
  purchase request w = (Raise e, w') -> committed w' = committed w.
Proof.
  unfold purchase, bind, lift.
  destruct (total_amount_ex_tax _) as [ex|e0];
    [|intros H; inversion H; reflexivity].
  unfold get_db_connection.
  destruct (config_all (config w));
    [|intros H; inversion H; reflexivity].
  simpl negb. cbv iota. rewrite pymysql_connect_eq.
  destruct (next_outcome w) as [u|e1] eqn:E1.
  2:{ destruct (next_outcome_raise _ _ E1) as [m ->].
      intros H; inversion H; reflexivity. }
  set (w1 := set_session (after_call w CConnect) (Some (committed w))).
  assert (Hl1 : live w1) by (unfold live, w1; simpl; discriminate).
  unfold try_finally, try_except_pymysql at 1.
  destruct (try_except_pymysql _ _ w1) as [r2 w2] eqn:E2.
  unfold try_except_pymysql in E2.
  destruct (purchase_try _ _ _ w1) as [[resp1|e3] w3] eqn:E3.
  - inversion E2; subst r2 w2. simpl. discriminate.
  - destruct (purchase_try_raise _ _ _ _ _ _ Hl1 E3) as ([m ->] & Hc & Hl3).
    unfold bind in E2.
    pose proof (conn_rollback_committed w3) as Hc3.
    destruct (conn_rollback w3) as [[u3|e4] w4] eqn:E4; simpl in Hc3.
    + inversion E2; subst r2 w2. simpl.
      intros H; inversion H; subst. simpl. rewrite Hc3, Hc. reflexivity.
    + rewrite conn_rollback_eq in E4.
      assert (He4 : exists m4, e4 = pymysql_Error m4).
      { destruct (next_outcome w3) as [u3|e5] eqn:E5.
        - destruct (session w3); [discriminate|].
          inversion E4; eexists; reflexivity.
        - inversion E4; subst. eapply next_outcome_raise; exact E5. }
      destruct He4 as [m4 ->]. inversion E2; subst r2 w2. simpl.
      intros H; inversion H; subst. simpl. rewrite Hc3, Hc. reflexivity.
Qed.

(** The part of C1 that holds: the total adds, item by item, the floored
    unit price times the quantity; nothing is floored after summing. *)
Lemma total_amount_ex_tax_per_unit items v :
  total_amount_ex_tax items = Ret v ->
  exists u : PurchaseItem.t -> Z,
    (forall item, In item items ->
       unit_price_ex_tax (PurchaseItem.prd_price item) = Ret (u item))
    /\ v = sigma (fun item => u item * PurchaseItem.quantity item) items.
Proof.
  unfold total_amount_ex_tax. intros H.
  destruct (sum_gen_inv _ _ _ _ H) as (g & Hg & ->).
  exists (fun item =>
            match unit_price_ex_tax (PurchaseItem.prd_price item) with
            | Ret u => u
            | Raise _ => 0
            end).
  split.
  - intros item Hin. specialize (Hg item Hin).
    destruct (unit_price_ex_tax (PurchaseItem.prd_price item));
      [reflexivity|discriminate].
  - simpl. clear H. induction items as [|item rest IH]; [reflexivity|].
    simpl. rewrite IH by (intros y Hy; apply Hg; right; exact Hy).
    specialize (Hg item (or_introl eq_refl)).
    destruct (unit_price_ex_tax (PurchaseItem.prd_price item));
      simpl in Hg; [|discriminate].
    inversion Hg. reflexivity.
Qed.

(** Up to 2000 yen the binary64 floor is the exact floor except on some
    multiples of 11, where it is one less. *)
Lemma unit_price_ex_tax_upto_2000 price :
  1 <= price <= 2000 ->
  exists u,
    unit_price_ex_tax price = Ret u
    /\ (u = exact_floor_div_1_1 price
        \/ (price mod 11 = 0 /\ u = exact_floor_div_1_1 price - 1)).
Proof.
  intros Hp.
  assert (Hall : List.forallb (fun k => floor_near_exact (Z.of_nat k))
                              (List.seq 1 2000) = true)
    by (vm_compute; reflexivity).
  rewrite forallb_forall in Hall.
  specialize (Hall (Z.to_nat price)).
  rewrite Z2Nat.id in Hall by lia.
  assert (Hin : In (Z.to_nat price) (List.seq 1 2000))
    by (apply in_seq; lia).
  specialize (Hall Hin). unfold floor_near_exact in Hall.
  destruct (unit_price_ex_tax price) as [u|]; [|discriminate].
  exists u. split; [reflexivity|].
  apply orb_true_iff in Hall as [H|H].
  - left. apply Z.eqb_eq. exact H.
  - right. apply andb_true_iff in H as [H1 H2].
    split; apply Z.eqb_eq; assumption.
Qed.

(** ** Properties of the totals *)

(** C1: the tax-exclusive total is not built from the exact floor of
    [price / 1.1].  For one unit of a valid item priced 110 the code, which
    divides in binary64, answers 99; the floor of the rational 110/1.1 is
    100. *)
Theorem total_amount_ex_tax_not_exact_floor :
  forall (prd_id : Z) (prd_code prd_name : str),
    let item := PurchaseItem.mk prd_id prd_code prd_name 110 1 in
    PurchaseItem.valid item = true
    /\ total_amount_ex_tax [item] = Ret 99
    /\ sigma (fun i => exact_floor_div_1_1 (PurchaseItem.prd_price i)
                       * PurchaseItem.quantity i) [item] = 100.
Proof.
  intros. split; [reflexivity|].
  split; [vm_compute; reflexivity|reflexivity].
Qed.

(** C5: a purchase that answers reports, and stores in its header, the sum
    over the items of price times quantity, in integer arithmetic. *)
Theorem purchase_total_amount :
  forall request w resp w',
    purchase request w = (Ret resp, w') ->
    let expected :=
      sigma (fun i => PurchaseItem.prd_price i * PurchaseItem.quantity i)
            (PurchaseRequest.items request) in
    PurchaseResponse.total_amount resp = expected
    /\ exists header,
         t_txn (committed w') = t_txn (committed w) ++ [header]
         /\ TOTAL_AMT header = expected.
Proof.
  intros request w resp w' H expected.
  destruct (purchase_ret _ _ _ _ H) as (ex & _ & -> & Hc).
  assert (Ht : total_amount (PurchaseRequest.items request) = expected)
    by (unfold total_amount; apply sum_map_sigma).
  split; [exact Ht|].
  eexists. rewrite Hc. simpl. split; [reflexivity|exact Ht].
Qed.

Lemma purchase_total_amount_witness :
  exists resp w',
    purchase (Example.request None) (Example.world []) = (Ret resp, w')
    /\ PurchaseResponse.total_amount resp = 436.
Proof.
  eexists; eexists.
  assert (E : purchase (Example.request None) (Example.world [])
              = (Ret ?[resp], ?[w'])) by (vm_compute; reflexivity).
  split; [exact E|].
  exact (proj1 (purchase_total_amount _ _ _ _ E)).
Defined.

(** C2: on the items [{price: 108, qty: 2}, {price: 220, qty: 1}] a
    purchase that answers reports 436 and leaves three detail rows numbered
    1, 2, 3, but its tax-exclusive total is 395, not 396: binary64 gives
    [220 / 1.1 = 199.99999999999997], whose floor is 199. *)
Theorem purchase_example_totals :
  forall request w resp w' i1 i2,
    PurchaseRequest.items request = [i1; i2] ->
    PurchaseItem.prd_price i1 = 108 -> PurchaseItem.quantity i1 = 2 ->
    PurchaseItem.prd_price i2 = 220 -> PurchaseItem.quantity i2 = 1 ->
    purchase request w = (Ret resp, w') ->
    PurchaseResponse.total_amount resp = 436
    /\ PurchaseResponse.total_amount_ex_tax resp = 395
    /\ unit_price_ex_tax 108 = Ret 98
    /\ unit_price_ex_tax 220 = Ret 199
    /\ exists rows,
         t_txn_dtl (committed w') = t_txn_dtl (committed w) ++ rows
         /\ List.map DTL_ID rows = [1; 2; 3].
Proof.
  intros request w resp w' i1 i2 Hi Hp1 Hq1 Hp2 Hq2 H.
  destruct (purchase_ret _ _ _ _ H) as (ex & Hex & -> & Hc).
  rewrite Hi in Hex, Hc |- *.
  destruct i1 as [id1 c1 n1 p1 q1], i2 as [id2 c2 n2 p2 q2].
  simpl in Hp1, Hq1, Hp2, Hq2. subst p1 q1 p2 q2.
  assert (Hex' : total_amount_ex_tax
                   [PurchaseItem.mk id1 c1 n1 108 2;
                    PurchaseItem.mk id2 c2 n2 220 1] = Ret 395)
    by (vm_compute; reflexivity).
  rewrite Hex' in Hex. inversion Hex; subst ex.
  split; [reflexivity|]. split; [reflexivity|].
  split; [vm_compute; reflexivity|]. split; [vm_compute; reflexivity|].
  eexists. rewrite Hc. split; reflexivity.
Qed.

Lemma purchase_example_totals_witness :
  exists resp w',
    purchase (Example.request None) (Example.world []) = (Ret resp, w')
    /\ PurchaseResponse.total_amount_ex_tax resp = 395.
Proof.
  eexists; eexists.
  assert (E : purchase (Example.request None) (Example.world [])
              = (Ret ?[resp], ?[w'])) by (vm_compute; reflexivity).
  split; [exact E|].
  exact (proj1 (proj2 (purchase_example_totals
                         (Example.request None) (Example.world []) _ _
                         (Example.item 108 2) (Example.item 220 1)
                         eq_refl eq_refl eq_refl eq_refl eq_refl E))).
Defined.

(** ** Properties of the detail rows *)

(** C3: a purchase that answers has added as many detail rows as the sum of
    the quantities; their [DTL_ID]s are 1, 2, ..., that sum, in this order;
    the rows follow the items in the order submitted, one row per unit, the
    counter running on from one item to the next. *)
Theorem purchase_detail_rows :
  forall request w resp w',
    PurchaseRequest.valid request = true ->
    purchase request w = (Ret resp, w') ->
    exists rows,
      t_txn_dtl (committed w') = t_txn_dtl (committed w) ++ rows
      /\ Z.of_nat (List.length rows)
         = sigma PurchaseItem.quantity (PurchaseRequest.items request)
      /\ List.map DTL_ID rows
         = List.map Z.of_nat (List.seq 1 (List.length rows))
      /\ List.map row_columns rows
         = List.flat_map
             (fun item => List.repeat (item_columns item)
                            (Z.to_nat (PurchaseItem.quantity item)))
             (PurchaseRequest.items request)
      /\ Forall (fun r => Some (dtl_TRD_ID r)
                          = PurchaseResponse.transaction_id resp) rows.
Proof.
  intros request w resp w' Hv H.
  destruct (purchase_ret _ _ _ _ H) as (ex & _ & -> & Hc).
  exists (detail_rows (auto_increment w) (PurchaseRequest.items request) 1).
  split; [rewrite Hc; reflexivity|].
  rewrite detail_rows_length.
  split; [apply units_sigma_quantity, valid_items, Hv|].
  split; [apply detail_rows_dtl_id; reflexivity|].
  split; [apply detail_rows_columns|].
  eapply Forall_impl; [|apply detail_rows_owner].
  simpl. intros r [-> _]. reflexivity.
Qed.

Lemma purchase_detail_rows_witness :
  exists rows,
    t_txn_dtl (committed (snd (purchase (Example.request None) (Example.world []))))
    = rows
    /\ List.map DTL_ID rows = [1; 2; 3].
Proof.
  assert (E : purchase (Example.request None) (Example.world [])
              = (Ret ?[resp], ?[w'])) by (vm_compute; reflexivity).
  destruct (purchase_detail_rows (Example.request None) (Example.world []) _ _
              eq_refl E) as (rows & Hrows & Hlen & Hid & _).
  exists rows. rewrite E. split; [exact Hrows|].
  rewrite Hid.
  assert (Hl : List.length rows = 3%nat).
  { apply Nat2Z.inj. rewrite Hlen. reflexivity. }
  rewrite Hl. reflexivity.
Defined.

(** ** The request contract *)

Section Contract.

(** What [parse_request] hands to the handler. *)
Lemma parse_request_ret b request :
  parse_request b = Ret request ->
  PurchaseRequest.emp_cd request
  = match Body.emp_cd b with
    | Missing => Some []
    | Null => None
    | Value s => Some s
    end
  /\ Body.items b = Value (PurchaseRequest.items request)
  /\ List.forallb PurchaseItem.valid (PurchaseRequest.items request) = true.
Proof.
  unfold parse_request.
  destruct (optional_str_field (Body.emp_cd b)) as [emp|] eqn:E1; [|discriminate].
  destruct (str_field _ (Body.store_cd b)) as [store|]; [|discriminate].
  destruct (str_field _ (Body.pos_no b)) as [pos|]; [|discriminate].
  destruct (items_field (Body.items b)) as [its|] eqn:E4; [|discriminate].
  simpl. intros H; inversion H; subst; simpl.
  split.
  - destruct (Body.emp_cd b) as [| |s]; simpl in E1.
    + inversion E1; reflexivity.
    + inversion E1; reflexivity.
    + destruct (constrained_str s); inversion E1; reflexivity.
  - unfold items_field in E4. destruct (Body.items b) as [| |l]; try discriminate.
    destruct (_ && _) eqn:E; [|discriminate].
    inversion E4; subst. apply andb_true_iff in E as [_ E]. split; [reflexivity|exact E].
Qed.

Lemma post_purchase_ret b w resp w' :
  post_purchase b w = (Ret resp, w') ->
  exists request,
    parse_request b = Ret request /\ purchase request w = (Ret resp, w').
Proof.
  unfold post_purchase, bind, lift.
  destruct (parse_request b) as [request|e]; [|discriminate].
  intros H. exists request. split; [reflexivity|exact H].
Qed.

Lemma optional_str_field_raise f e :
  optional_str_field f = Raise e -> e = RequestValidationError.
Proof.
  destruct f as [| |s]; simpl; try discriminate.
  destruct (constrained_str s); [discriminate|]. intros H; inversion H; reflexivity.
Qed.

Lemma str_field_raise d f e :
  str_field d f = Raise e -> e = RequestValidationError.
Proof.
  destruct f as [| |s]; simpl; try discriminate.
  - intros H; inversion H; reflexivity.
  - destruct (constrained_str s); [discriminate|]. intros H; inversion H; reflexivity.
Qed.

Lemma items_field_raise f e :
  items_field f = Raise e -> e = RequestValidationError.
Proof.
  destruct f as [| |l]; simpl; try (intros H; inversion H; reflexivity).
  destruct (_ && _); [discriminate|]. intros H; inversion H; reflexivity.
Qed.

Lemma str_field_long d s :
  20 < len s -> str_field d (Value s) = Raise RequestValidationError.
Proof.
  intros H. simpl. unfold constrained_str. apply Z.leb_gt in H.
  rewrite H, andb_false_r. reflexivity.
Qed.

Lemma items_field_invalid l item :
  In item l ->
  PurchaseItem.prd_price item <= 0 \/ PurchaseItem.quantity item < 1
  \/ 9999 < PurchaseItem.quantity item ->
  items_field (Value l) = Raise RequestValidationError.
Proof.
  intros Hin Hbad. simpl.
  assert (Hf : List.forallb PurchaseItem.valid l = false).
  { destruct (List.forallb PurchaseItem.valid l) eqn:Ef; [|reflexivity].
    rewrite forallb_forall in Ef. specialize (Ef item Hin).
    unfold PurchaseItem.valid in Ef.
    apply andb_true_iff in Ef as [Ef Hle].
    apply andb_true_iff in Ef as [Hp Hq].
    apply Z.ltb_lt in Hp, Hq. apply Z.leb_le in Hle. lia. }
  rewrite Hf, andb_false_r. reflexivity.
Qed.

(** A body that breaks the contract does not parse. *)
Lemma parse_request_breaks b :
  breaks_contract b -> parse_request b = Raise RequestValidationError.
Proof.
  intros H. unfold parse_request.
  destruct (optional_str_field (Body.emp_cd b)) as [emp|e1] eqn:E1; simpl;
    [|rewrite (optional_str_field_raise _ _ E1); reflexivity].
  destruct (str_field (lit "30") (Body.store_cd b)) as [store|e2] eqn:E2; simpl;
    [|rewrite (str_field_raise _ _ _ E2); reflexivity].
  destruct (str_field (lit "90") (Body.pos_no b)) as [pos|e3] eqn:E3; simpl;
    [|rewrite (str_field_raise _ _ _ E3); reflexivity].
  destruct (items_field (Body.items b)) as [its|e4] eqn:E4; simpl;
    [|rewrite (items_field_raise _ _ E4); reflexivity].
  exfalso.
  destruct H as [(s & Hs & Hlen)|[(s & Hs & Hlen)|[(s & Hs & Hlen)|H]]].
  - rewrite Hs in E1. simpl in E1. unfold constrained_str in E1.
    apply Z.leb_gt in Hlen. rewrite Hlen, andb_false_r in E1. discriminate.
  - rewrite Hs, (str_field_long _ _ Hlen) in E2. discriminate.
  - rewrite Hs, (str_field_long _ _ Hlen) in E3. discriminate.
  - destruct H as [[H|H]|[H|(l & item & H & Hin & Hbad)]]; rewrite H in E4.
    + discriminate.
    + discriminate.
    + discriminate.
    + rewrite (items_field_invalid _ _ Hin Hbad) in E4. discriminate.
Qed.

End Contract.

(** C9: a body that breaks the contract (a price that is not positive, a
    quantity outside 1..9999, no items, or [emp_cd], [store_cd] or [pos_no]
    longer than 20 characters) is refused with the validation error, status
    422, and the world is left as it was: no driver call is made and no row
    is written. *)
Theorem post_purchase_validates_first :
  forall b w,
    breaks_contract b ->
    post_purchase b w = (Raise RequestValidationError, w)
    /\ http_status (fst (post_purchase b w)) = HTTP_422_UNPROCESSABLE_ENTITY
    /\ calls (snd (post_purchase b w)) = calls w
    /\ committed (snd (post_purchase b w)) = committed w.
Proof.
  intros b w H.
  assert (E : post_purchase b w = (Raise RequestValidationError, w)).
  { unfold post_purchase, bind, lift. rewrite (parse_request_breaks b H).
    reflexivity. }
  rewrite E. repeat split.
Qed.

Lemma post_purchase_validates_first_witness :
  breaks_contract (Example.body Missing [Example.item 108 0])
  /\ post_purchase (Example.body Missing [Example.item 108 0]) (Example.world [])
     = (Raise RequestValidationError, Example.world []).
Proof.
  assert (H : breaks_contract (Example.body Missing [Example.item 108 0])).
  { unfold breaks_contract. do 5 right.
    exists [Example.item 108 0], (Example.item 108 0).
    split; [reflexivity|]. split; [left; reflexivity|].
    right; left. simpl. lia. }
  split; [exact H|].
  exact (proj1 (post_purchase_validates_first _ (Example.world []) H)).
Defined.

(** ** The employee code of the header *)

(** C7: when the body leaves [emp_cd] out, or gives [null] or the empty
    string, a purchase that answers has stored its header with the sentinel
    "9999999999" as [EMP_CD]; a non-empty [emp_cd] is stored as given. *)
Theorem post_purchase_emp_cd :
  forall b w resp w',
    post_purchase b w = (Ret resp, w') ->
    exists header,
      t_txn (committed w') = t_txn (committed w) ++ [header]
      /\ Some (TRD_ID header) = PurchaseResponse.transaction_id resp
      /\ (Body.emp_cd b = Missing \/ Body.emp_cd b = Null
          \/ Body.emp_cd b = Value [] ->
          EMP_CD header = lit "9999999999")
      /\ (forall s, Body.emp_cd b = Value s -> s <> [] -> EMP_CD header = s).
Proof.
  intros b w resp w' H.
  destruct (post_purchase_ret _ _ _ _ H) as (request & Hp & Hr).
  destruct (parse_request_ret _ _ Hp) as (Hemp & _).
  destruct (purchase_ret _ _ _ _ Hr) as (ex & _ & -> & Hc).
  eexists. rewrite Hc. simpl. split; [reflexivity|]. split; [reflexivity|].
  rewrite Hemp. split.
  - intros [-> |[-> | ->]]; reflexivity.
  - intros s -> Hs. destruct s as [|c s]; [contradiction|reflexivity].
Qed.

Lemma post_purchase_emp_cd_witness :
  exists header,
    t_txn (committed (snd (post_purchase
                             (Example.body Missing [Example.item 108 2])
                             (Example.world []))))
    = [header]
    /\ EMP_CD header = lit "9999999999".
Proof.
  assert (E : post_purchase (Example.body Missing [Example.item 108 2])
                            (Example.world [])
              = (Ret ?[resp], ?[w'])) by (vm_compute; reflexivity).
  destruct (post_purchase_emp_cd _ _ _ _ E) as (header & Hh & _ & Hs & _).
  exists header. rewrite E. split; [exact Hh|].
  apply Hs. left. reflexivity.
Defined.

(** C10: an [emp_cd] made of whitespace only is not replaced: a purchase
    that answers has stored it in the header as it came, and it is not the
    sentinel. *)
Theorem post_purchase_whitespace_emp_cd :
  forall b w resp w' s,
    Body.emp_cd b = Value s ->
    whitespace_only s ->
    post_purchase b w = (Ret resp, w') ->
    exists header,
      t_txn (committed w') = t_txn (committed w) ++ [header]
      /\ EMP_CD header = s
      /\ EMP_CD header <> sentinel_emp_cd.
Proof.
  intros b w resp w' s Hb [Hne Hws] H.
  destruct (post_purchase_ret _ _ _ _ H) as (request & Hp & Hr).
  destruct (parse_request_ret _ _ Hp) as (Hemp & _).
  destruct (purchase_ret _ _ _ _ Hr) as (ex & _ & -> & Hc).
  eexists. rewrite Hc. simpl. split; [reflexivity|].
  rewrite Hemp, Hb. destruct s as [|c s]; [contradiction|].
  simpl. split; [reflexivity|].
  intros Heq. rewrite Heq in Hws. vm_compute in Hws. discriminate.
Qed.

Lemma post_purchase_whitespace_emp_cd_witness :
  exists header,
    t_txn (committed (snd (post_purchase
                             (Example.body (Value (lit " ")) [Example.item 108 2])
                             (Example.world []))))
    = [header]
    /\ EMP_CD header = lit " ".
Proof.
  assert (E : post_purchase (Example.body (Value (lit " ")) [Example.item 108 2])
                            (Example.world [])
              = (Ret ?[resp], ?[w'])) by (vm_compute; reflexivity).
  assert (Hw : whitespace_only (lit " ")).
  { split; [discriminate|reflexivity]. }
  destruct (post_purchase_whitespace_emp_cd
              (Example.body (Value (lit " ")) [Example.item 108 2])
              _ _ _ (lit " ") eq_refl Hw E)
    as (header & Hh & Hs & _).
  exists header. rewrite E. split; [exact Hh|exact Hs].
Defined.

(** ** The connection provider *)

(** C8: with an empty host, user, password or database name the provider
    raises 503 "configuration incomplete" and makes no driver call, whatever
    the body is; with a complete configuration and a connect call that
    fails it raises 503 "cannot connect", the body is not run and connect is
    the only driver call; the two details differ. *)
Theorem get_db_connection_unavailable :
  forall (A : Type) (body : M A) (w : World),
    (config_all (config w) = false ->
     get_db_connection body w
     = (Raise (HTTPException HTTP_503_SERVICE_UNAVAILABLE
                             detail_config_incomplete), w))
    /\ (forall msg rest,
          config_all (config w) = true ->
          faults w = Some msg :: rest ->
          fst (get_db_connection body w)
          = Raise (HTTPException HTTP_503_SERVICE_UNAVAILABLE
                                 detail_cannot_connect)
          /\ calls (snd (get_db_connection body w)) = calls w ++ [CConnect]
          /\ committed (snd (get_db_connection body w)) = committed w
          /\ session (snd (get_db_connection body w)) = session w)
    /\ detail_config_incomplete <> detail_cannot_connect
    /\ (config_all (config w) = false <->
        Config.DB_HOST (config w) = [] \/ Config.DB_USER (config w) = []
        \/ Config.DB_PASSWORD (config w) = [] \/ Config.DB_NAME (config w) = []).
Proof.
  intros A body w. split; [|split; [|split]].
  - intros H. unfold get_db_connection. rewrite H. reflexivity.
  - intros msg rest H Hf. unfold get_db_connection. rewrite H. simpl negb.
    cbv iota. rewrite pymysql_connect_eq. unfold next_outcome. rewrite Hf.
    repeat split.
  - discriminate.
  - unfold config_all.
    destruct (Config.DB_HOST (config w)), (Config.DB_USER (config w)),
      (Config.DB_PASSWORD (config w)), (Config.DB_NAME (config w));
      simpl; split; intros H; auto; try discriminate;
      destruct H as [H|[H|[H|H]]]; discriminate.
Qed.

Lemma get_db_connection_unavailable_witness :
  get_db_connection (ret tt) Example.unconfigured
  = (Raise (HTTPException 503 detail_config_incomplete), Example.unconfigured)
  /\ fst (get_db_connection (ret tt) (Example.world [Some (lit "timed out")]))
     = Raise (HTTPException 503 detail_cannot_connect).
Proof.
  split.
  - exact (proj1 (get_db_connection_unavailable unit (ret tt)
                    Example.unconfigured) eq_refl).
  - exact (proj1 (proj1 (proj2 (get_db_connection_unavailable unit (ret tt)
                    (Example.world [Some (lit "timed out")])))
                    (lit "timed out") [] eq_refl eq_refl)).
Defined.

(** ** Product lookup *)

Section Lookup.

Lemma lstrip_nil_iff s : lstrip s = [] <-> List.forallb isspace s = true.
Proof.
  induction s as [|c s IH]; simpl; [tauto|].
  destruct (isspace c); simpl; [exact IH|]. split; discriminate.
Qed.

Lemma lstrip_head s c s' : lstrip s = c :: s' -> isspace c = false.
Proof.
  induction s as [|a s IH]; simpl; [discriminate|].
  destruct (isspace a) eqn:E; [exact IH|].
  intros H; inversion H; subst. exact E.
Qed.

Lemma forallb_rev {A} (f : A -> bool) l :
  List.forallb f (List.rev l) = List.forallb f l.
Proof.
  induction l as [|x l IH]; [reflexivity|]. simpl.
  rewrite forallb_app, IH. simpl. rewrite andb_true_r. apply andb_comm.
Qed.

(** Nothing is left of a string by [strip] exactly when it is empty or
    whitespace only. *)
Lemma strip_nil_iff s : strip s = [] <-> List.forallb isspace s = true.
Proof.
  unfold strip, rstrip. split.
  - intros H.
    assert (H1 : lstrip (List.rev (lstrip s)) = []).
    { destruct (lstrip (List.rev (lstrip s))) as [|a l]; [reflexivity|].
      simpl in H. destruct (List.rev l); discriminate. }
    apply lstrip_nil_iff in H1. rewrite forallb_rev in H1.
    destruct (lstrip s) as [|c s'] eqn:E; [apply lstrip_nil_iff; exact E|].
    apply lstrip_head in E. simpl in H1. rewrite E in H1. discriminate.
  - intros H. apply lstrip_nil_iff in H. rewrite H. reflexivity.
Qed.


Lemma call_passes_0 w : call_passes 0 w -> next_outcome w = Ret tt.
Proof.
  unfold call_passes, next_outcome.
  destruct (faults w) as [|[m|] fs]; simpl; intros H;
    [reflexivity|discriminate|reflexivity].
Qed.


End Lookup.

Section Strip.

Lemma lstrip_idempotent s : lstrip (lstrip s) = lstrip s.
Proof.
  induction s as [|c s IH]; [reflexivity|]. simpl.
  destruct (isspace c) eqn:E; [exact IH|]. simpl. rewrite E. reflexivity.
Qed.

Lemma lstrip_app_nonspace l c :
  isspace c = false -> lstrip (l ++ [c]) = lstrip l ++ [c].
Proof.
  intros Hc. induction l as [|a l IH]; simpl.
  - rewrite Hc. reflexivity.
  - destruct (isspace a); [exact IH|reflexivity].
Qed.

Lemma lstrip_fixed s :
  match s with [] => True | c :: _ => isspace c = false end ->
  lstrip s = s.
Proof. destruct s as [|c s]; simpl; [reflexivity|]. intros ->. reflexivity. Qed.

Lemma rstrip_keeps_head c t :
  isspace c = false -> exists u, rstrip (c :: t) = c :: u.
Proof.
  intros Hc. unfold rstrip. simpl List.rev.
  rewrite (lstrip_app_nonspace _ _ Hc), rev_app_distr. simpl.
  eexists; reflexivity.
Qed.

Lemma rstrip_idempotent s : rstrip (rstrip s) = rstrip s.
Proof. unfold rstrip. rewrite rev_involutive, lstrip_idempotent. reflexivity. Qed.

(** Trimming twice is trimming once. *)
Lemma strip_idempotent s : strip (strip s) = strip s.
Proof.
  unfold strip.
  assert (H : lstrip (rstrip (lstrip s)) = rstrip (lstrip s)).
  { destruct (lstrip s) as [|c t] eqn:E; [reflexivity|].
    pose proof (lstrip_head _ _ _ E) as Hc.
    destruct (rstrip_keeps_head c t Hc) as [u ->].
    simpl. rewrite Hc. reflexivity. }
  rewrite H. apply rstrip_idempotent.
Qed.

End Strip.

Section Trimmed.

Lemma lstrip_app_spaces pre s :
  List.forallb isspace pre = true -> lstrip (pre ++ s) = lstrip s.
Proof.
  induction pre as [|c pre IH]; simpl; [reflexivity|].
  intros H. apply andb_true_iff in H as [Hc Hp]. rewrite Hc. exact (IH Hp).
Qed.

(** [strip] finds the part between the whitespace: whenever a string is
    whitespace, then a part that neither starts nor ends with whitespace,
    then whitespace, [strip] gives that part. *)
Lemma strip_decompose pre core post :
  List.forallb isspace pre = true ->
  List.forallb isspace post = true ->
  trimmed core ->
  strip (pre ++ core ++ post) = core.
Proof.
  intros Hpre Hpost [Hfirst Hlast].
  destruct core as [|c t].
  - apply strip_nil_iff. simpl. rewrite forallb_app, Hpre, Hpost. reflexivity.
  - unfold strip. rewrite (lstrip_app_spaces _ _ Hpre).
    change ((c :: t) ++ post) with (c :: (t ++ post)).
    rewrite (lstrip_fixed (c :: t ++ post) Hfirst).
    unfold rstrip.
    change (c :: t ++ post) with ((c :: t) ++ post).
    rewrite rev_app_distr.
    rewrite lstrip_app_spaces by (rewrite forallb_rev; exact Hpost).
    rewrite (lstrip_fixed (List.rev (c :: t)) Hlast).
    apply rev_involutive.
Qed.

End Trimmed.

(** The lookup after its argument check. *)
Lemma search_product_code request_body w s :
  dict_get request_body (lit "code") (PyStr []) = PyStr s ->
  search_product request_body w
  = (if negb (str_truthy (strip s)) then
       raise (HTTPException HTTP_400_BAD_REQUEST detail_code_required)
     else
       py_print (strip s) ;;
       get_db_connection
         (cursor <- cursor_execute (SelectProduct (strip s)) ;;
          match fetchone cursor with
          | Some result =>
              py_print (Product.prd_name result) ;;
              p <- lift (Product_of_row result) ;;
              ret (ProductSearchResponse.mk (Some p))
          | None => ret (ProductSearchResponse.mk None)
          end)) w.
Proof. intros H. unfold search_product, bind at 1, lift at 1. rewrite H. reflexivity. Qed.




(** ** A purchase whose [k]-th write fails *)

Section FailingWrite.

Variables (e : str) (rest : list (option str)).







End FailingWrite.

(** ** Failure of the transaction *)




(** ** The connection provider, on every path *)

Section Provider.

Context {A : Type} (body : M A).

(** The world the body of a [with get_db_connection()] block starts in. *)
Lemma get_db_connection_cases w :
  get_db_connection body w
  = if negb (config_all (config w)) then
      (Raise (HTTPException HTTP_503_SERVICE_UNAVAILABLE
                            detail_config_incomplete), w)
    else
      match next_outcome w with
      | Raise _ =>
          (Raise (HTTPException HTTP_503_SERVICE_UNAVAILABLE
                                detail_cannot_connect),
           after_call w CConnect)
      | Ret _ =>
          let w1 := set_session (after_call w CConnect) (Some (committed w)) in
          (match fst (body w1) with
           | Raise (pymysql_Error _) =>
               Raise (HTTPException HTTP_503_SERVICE_UNAVAILABLE
                                    detail_cannot_connect)
           | r => r
           end,
           set_session (add_call (snd (body w1)) CClose) None)
      end.
Proof.
  unfold get_db_connection. destruct (negb (config_all (config w))); [reflexivity|].
  rewrite pymysql_connect_eq.
  destruct (next_outcome w) as [u|e] eqn:E.
  - unfold try_finally, try_except_pymysql, conn_close, raise. cbv zeta.
    destruct (body _) as [[a|[]] w2]; reflexivity.
  - destruct (next_outcome_raise _ _ E) as [m ->]. reflexivity.
Qed.

End Provider.

(** X1: once the connection is open, whatever the body does, the provider
    closes it: [close] is the last driver call and no session is left.  The
    body's value or exception passes through, except the driver's error,
    which becomes 503 "cannot connect". *)
Theorem get_db_connection_releases :
  forall (A : Type) (body : M A) (w : World),
    config_all (config w) = true ->
    call_passes 0 w ->
    let w1 := set_session (after_call w CConnect) (Some (committed w)) in
    session (snd (get_db_connection body w)) = None
    /\ calls (snd (get_db_connection body w)) = calls (snd (body w1)) ++ [CClose]
    /\ fst (get_db_connection body w)
       = match fst (body w1) with
         | Raise (pymysql_Error _) =>
             Raise (HTTPException HTTP_503_SERVICE_UNAVAILABLE
                                  detail_cannot_connect)
         | r => r
         end.
Proof.
  intros A body w Hc Hp w1.
  rewrite get_db_connection_cases, Hc, (call_passes_0 _ Hp). simpl negb.
  cbv iota zeta. fold w1. repeat split.
Qed.

Lemma get_db_connection_releases_witness :
  session (snd (get_db_connection (raise AttributeError : M unit)
                  (Example.world []))) = None
  /\ fst (get_db_connection (raise AttributeError : M unit) (Example.world []))
     = Raise AttributeError.
Proof.
  destruct (get_db_connection_releases unit (raise AttributeError)
              (Example.world []) eq_refl eq_refl) as (Hs & _ & Hr).
  split; [exact Hs|exact Hr].
Defined.

(** X2: the provider never leaves a connection behind: from a world with no
    open session, it ends with no open session, on every path and for every
    body; and it publishes nothing that the body does not publish. *)
Theorem get_db_connection_no_leak :
  forall (A : Type) (body : M A) (w : World),
    session w = None ->
    session (snd (get_db_connection body w)) = None
    /\ ((forall w0, committed (snd (body w0)) = committed w0) ->
        committed (snd (get_db_connection body w)) = committed w).
Proof.
  intros A body w Hs. rewrite get_db_connection_cases.
  destruct (negb (config_all (config w))); [split; [exact Hs|reflexivity]|].
  destruct (next_outcome w) as [u|e]; cbv zeta.
  - split; [reflexivity|]. intros Hb. simpl. rewrite Hb. reflexivity.
  - split; [exact Hs|reflexivity].
Qed.

Lemma get_db_connection_no_leak_witness :
  session (snd (get_db_connection (ret tt)
                  (Example.world [Some (lit "refused")]))) = None.
Proof.
  exact (proj1 (get_db_connection_no_leak unit (ret tt)
                  (Example.world [Some (lit "refused")]) eq_refl)).
Defined.

(** ** Product lookup, on every path *)

(** X3: the lookup sees the code only through [strip]: whitespace around the
    code changes nothing, in the answer or in the world. *)
Theorem search_product_ignores_padding :
  forall request_body w s,
    dict_get request_body (lit "code") (PyStr []) = PyStr s ->
    search_product request_body w
    = search_product [(lit "code", PyStr (strip s))] w.
Proof.
  intros request_body w s H.
  rewrite (search_product_code _ _ _ H).
  rewrite (search_product_code [(lit "code", PyStr (strip s))] w (strip s) eq_refl).
  rewrite strip_idempotent. reflexivity.
Qed.

Lemma search_product_ignores_padding_witness :
  search_product [(lit "code", PyStr (lit "  4901 "))] (Example.world [])
  = search_product [(lit "code", PyStr (lit "4901"))] (Example.world []).
Proof.
  exact (search_product_ignores_padding
           [(lit "code", PyStr (lit "  4901 "))] (Example.world [])
           (lit "  4901 ") eq_refl).
Defined.



(** What a lookup that answers with a product went through. *)
Lemma search_product_some request_body w p :
  fst (search_product request_body w)
  = Ret (ProductSearchResponse.mk (Some p)) ->
  exists s,
    dict_get request_body (lit "code") (PyStr []) = PyStr s
    /\ strip s <> []
    /\ List.find (fun q => collation w (Product.prd_code q) (strip s))
                 (m_product (committed w)) = Some p
    /\ 0 < Product.prd_price p
    /\ calls (snd (search_product request_body w))
       = calls w ++ [CConnect; CExecute (SelectProduct (strip s)); CClose].
Proof.
  assert (G : forall r, search_product request_body w = r ->
            fst r = Ret (ProductSearchResponse.mk (Some p)) ->
            exists s,
              dict_get request_body (lit "code") (PyStr []) = PyStr s
              /\ strip s <> []
              /\ List.find (fun q => collation w (Product.prd_code q) (strip s))
                           (m_product (committed w)) = Some p
              /\ 0 < Product.prd_price p
              /\ calls (snd r)
                 = calls w ++ [CConnect; CExecute (SelectProduct (strip s));
                               CClose]).
  { intros r Hr Hfst.
    unfold search_product, bind at 1, lift at 1 in Hr.
    destruct (dict_get request_body (lit "code") (PyStr [])) as [| | |s|] eqn:Eg;
      simpl py_strip in Hr; cbv iota in Hr;
      try (subst r; discriminate).
    destruct (strip s) as [|c s'] eqn:Es; [subst r; discriminate|].
    change (negb (str_truthy (c :: s'))) with false in Hr. cbv iota in Hr.
    unfold bind at 1, py_print at 1 in Hr.
    destruct (encodable (c :: s')); [|subst r; discriminate].
    rewrite get_db_connection_cases in Hr.
    destruct (negb (config_all (config w))); [subst r; discriminate|].
    destruct (next_outcome w) as [u|e1]; [|subst r; discriminate].
    cbv zeta in Hr. unfold bind in Hr. rewrite cursor_execute_eq in Hr.
    destruct (next_outcome _) as [u1|e2] eqn:En1 in Hr.
    2:{ subst r. simpl in Hfst. destruct e2; discriminate. }
    unfold run_stmt in Hr. simpl in Hr.
    destruct (List.find _ _) as [row|] eqn:Ef in Hr; [|subst r; discriminate].
    unfold py_print in Hr.
    destruct (encodable (Product.prd_name row)); [|subst r; discriminate].
    unfold lift, ret, Product_of_row in Hr.
    destruct (0 <? Product.prd_price row) eqn:Ep; [|subst r; discriminate].
    subst r. simpl in Hfst. inversion Hfst; subst.
    exists s. split; [reflexivity|]. rewrite Es.
    split; [discriminate|]. split; [exact Ef|].
    split; [apply Z.ltb_lt; exact Ep|].
    simpl. rewrite <- !app_assoc. reflexivity. }
  intros H. exact (G _ eq_refl H).
Qed.

(** X4: a lookup never answers with anything but a catalog row matching
    the trimmed code: when the code is whitespace, a part [core] that
    neither starts nor ends with whitespace, whitespace, and the lookup
    answers with a product, that product is a row of the catalog, unchanged,
    which the store matched against [core]; its price is positive; and the
    one statement sent was the select on [core]. *)
Theorem search_product_answer_matches :
  forall request_body w pre core post p,
    dict_get request_body (lit "code") (PyStr []) = PyStr (pre ++ core ++ post) ->
    List.forallb isspace pre = true ->
    List.forallb isspace post = true ->
    trimmed core ->
    fst (search_product request_body w)
    = Ret (ProductSearchResponse.mk (Some p)) ->
    In p (m_product (committed w))
    /\ collation w (Product.prd_code p) core = true
    /\ 0 < Product.prd_price p
    /\ calls (snd (search_product request_body w))
       = calls w ++ [CConnect; CExecute (SelectProduct core); CClose].
Proof.
  intros request_body w pre core post p Hget Hpre Hpost Htrim H.
  destruct (search_product_some _ _ _ H) as (s & Hs & _ & Hf & Hp & Hc).
  rewrite Hget in Hs. inversion Hs; subst s.
  rewrite (strip_decompose _ _ _ Hpre Hpost Htrim) in Hf, Hc.
  destruct (List.find_some _ _ Hf) as [Hin Hm].
  split; [exact Hin|]. split; [exact Hm|]. split; [exact Hp|exact Hc].
Qed.

Lemma search_product_answer_matches_witness :
  fst (search_product [(lit "code", PyStr (lit " 4901"))] (Example.world []))
  = Ret (ProductSearchResponse.mk (Some Example.tea))
  /\ In Example.tea (m_product (committed (Example.world []))).
Proof.
  assert (E : fst (search_product [(lit "code", PyStr (lit " 4901"))]
                     (Example.world []))
              = Ret (ProductSearchResponse.mk (Some Example.tea)))
    by (vm_compute; reflexivity).
  split; [exact E|].
  refine (proj1 (search_product_answer_matches
                   [(lit "code", PyStr (lit " 4901"))] (Example.world [])
                   (lit " ") (lit "4901") [] Example.tea
                   eq_refl eq_refl eq_refl _ E)).
  split; reflexivity.
Defined.



(** The worlds a lookup can end in. *)
Lemma search_product_world request_body w :
  snd (search_product request_body w) = w
  \/ snd (search_product request_body w) = after_call w CConnect
  \/ exists code,
       snd (search_product request_body w)
       = set_session
           (add_call
              (snd (cursor_execute (SelectProduct code)
                      (set_session (after_call w CConnect)
                                   (Some (committed w)))))
              CClose)
           None.
Proof.
  assert (H : forall r, search_product request_body w = r ->
            snd r = w \/ snd r = after_call w CConnect
            \/ exists code,
                 snd r
                 = set_session
                     (add_call
                        (snd (cursor_execute (SelectProduct code)
                                (set_session (after_call w CConnect)
                                             (Some (committed w)))))
                        CClose)
                     None).
  { intros r Hr. unfold search_product, bind, lift in Hr.
    destruct (py_strip _) as [code|e]; [|subst r; left; reflexivity].
    destruct (negb (str_truthy code)); [subst r; left; reflexivity|].
    unfold py_print at 1 in Hr.
    destruct (encodable code); [|subst r; left; reflexivity].
    rewrite get_db_connection_cases in Hr.
    destruct (negb (config_all (config w))); [subst r; left; reflexivity|].
    destruct (next_outcome w) as [u|e]; [|subst r; right; left; reflexivity].
    right; right. exists code. subst r. cbv zeta. simpl snd. do 2 f_equal.
    destruct (cursor_execute _ _) as [[cur|e] w2]; [|reflexivity].
    destruct (fetchone cur) as [row|]; [|reflexivity].
    unfold py_print. destruct (encodable (Product.prd_name row)); [|reflexivity].
    unfold Product_of_row. destruct (0 <? Product.prd_price row); reflexivity. }
  exact (H _ eq_refl).
Qed.

(** X6: the lookup only reads: whatever the body and the world, the
    committed tables are as before, no session is left open, and no insert,
    commit or rollback is sent. *)
Theorem search_product_read_only :
  forall request_body w,
    committed (snd (search_product request_body w)) = committed w
    /\ (session w = None ->
        session (snd (search_product request_body w)) = None)
    /\ (forall c, In c (calls (snd (search_product request_body w))) ->
                  In c (calls w) \/ c = CConnect \/ c = CClose
                  \/ exists code, c = CExecute (SelectProduct code)).
Proof.
  intros request_body w.
  destruct (search_product_world request_body w) as [-> |[-> |[code ->]]].
  - repeat split; auto.
  - split; [reflexivity|]. split; [auto|].
    intros c Hin. rewrite after_call_calls, in_app_iff in Hin. simpl in Hin.
    destruct Hin as [Hin|[<-|[]]]; auto.
  - split; [|split].
    + simpl. rewrite cursor_execute_committed. reflexivity.
    + reflexivity.
    + intros c Hin. simpl in Hin.
      rewrite in_app_iff, cursor_execute_calls in Hin. simpl in Hin.
      rewrite !in_app_iff in Hin. simpl in Hin.
      destruct Hin as [[[Hin|[<-|[]]]|[<-|[]]]|[<-|[]]]; eauto.
Qed.

Lemma search_product_read_only_witness :
  session (snd (search_product [(lit "code", PyStr (lit "4901"))]
                  (Example.world [None; Some (lit "gone away")]))) = None.
Proof.
  exact (proj1 (proj2 (search_product_read_only
                         [(lit "code", PyStr (lit "4901"))]
                         (Example.world [None; Some (lit "gone away")])))
               eq_refl).
Defined.

(** X7: a [code] that is present but is not a string ([null], a number, a
    list) is not answered with 400: [strip] does not exist on it, the
    [AttributeError] is unhandled (status 500), and nothing has been sent
    to the store. *)
Theorem search_product_code_not_a_string :
  forall request_body w v,
    dict_get request_body (lit "code") (PyStr []) = v ->
    (forall s, v <> PyStr s) ->
    search_product request_body w = (Raise AttributeError, w)
    /\ http_status (fst (search_product request_body w))
       = HTTP_500_INTERNAL_SERVER_ERROR.
Proof.
  intros request_body w v Hget Hv.
  assert (E : search_product request_body w = (Raise AttributeError, w)).
  { unfold search_product, bind, lift. rewrite Hget.
    destruct v; try reflexivity. exfalso. apply (Hv s). reflexivity. }
  rewrite E. split; reflexivity.
Qed.

Lemma search_product_code_not_a_string_witness :
  search_product [(lit "code", PyNone)] (Example.world [])
  = (Raise AttributeError, Example.world []).
Proof.
  refine (proj1 (search_product_code_not_a_string
                   [(lit "code", PyNone)] (Example.world []) PyNone eq_refl _)).
  intros s. discriminate.
Defined.

(** X8: the code is whitespace, a part [core] that neither starts nor ends
    with whitespace, whitespace, and [core] is not empty and free of
    surrogate code points.  When the query itself fails on an open
    connection, the lookup reports 503 "cannot connect", as for a failed
    connect, and the connection is closed: connect, the select on [core]
    and close are the driver calls made. *)
Theorem search_product_query_error :
  forall request_body w pre core post msg rest,
    dict_get request_body (lit "code") (PyStr []) = PyStr (pre ++ core ++ post) ->
    List.forallb isspace pre = true ->
    List.forallb isspace post = true ->
    trimmed core ->
    core <> [] ->
    encodable core = true ->
    config_all (config w) = true ->
    faults w = None :: Some msg :: rest ->
    search_product request_body w
    = (Raise (HTTPException HTTP_503_SERVICE_UNAVAILABLE detail_cannot_connect),
       mkWorld (config w) (committed w) (auto_increment w) (collation w)
               (clock w) None rest
               (calls w ++ [CConnect; CExecute (SelectProduct core); CClose])).
Proof.
  intros request_body w pre core post msg rest Hget Hpre Hpost Htrim Hne Henc
         Hcfg Hf.
  rewrite (search_product_code _ _ _ Hget).
  rewrite (strip_decompose _ _ _ Hpre Hpost Htrim).
  destruct core as [|c t]; [contradiction|].
  change (negb (str_truthy (c :: t))) with false. cbv iota.
  unfold bind at 1, py_print. rewrite Henc.
  rewrite get_db_connection_cases, Hcfg. simpl negb. cbv iota.
  unfold next_outcome at 1. rewrite Hf. cbv zeta iota.
  unfold bind. rewrite cursor_execute_eq.
  unfold next_outcome. simpl faults. rewrite Hf. simpl.
  f_equal. unfold set_session, add_call, after_call, set_faults. simpl.
  rewrite Hf. simpl. rewrite <- !app_assoc. reflexivity.
Qed.

Lemma search_product_query_error_witness :
  fst (search_product [(lit "code", PyStr (lit "4901 "))]
         (Example.world [None; Some (lit "Table 'm_product' doesn't exist")]))
  = Raise (HTTPException 503 detail_cannot_connect).
Proof.
  refine (f_equal fst
           (search_product_query_error
              [(lit "code", PyStr (lit "4901 "))]
              (Example.world [None; Some (lit "Table 'm_product' doesn't exist")])
              [] (lit "4901") (lit " ")
              (lit "Table 'm_product' doesn't exist") []
              eq_refl eq_refl eq_refl _ _ eq_refl eq_refl eq_refl)).
  - split; reflexivity.
  - discriminate.
Defined.

(** ** A purchase on a store that answers *)

Section PassingWrites.







Variable trd_id : Z.



End PassingWrites.



(** ** The ids the store hands out *)

Section Ids.

Lemma insert_dtl_auto_increment trd dtl prd code name price tax w :
  auto_increment
    (snd (cursor_execute (InsertDtl trd dtl prd code name price tax) w))
  = auto_increment w.
Proof.
  rewrite cursor_execute_eq. destruct (next_outcome w); [|reflexivity].
  unfold run_stmt. rewrite after_call_session.
  destruct (session w); reflexivity.
Qed.

Lemma insert_units_auto_increment trd item n : forall d w,
  auto_increment (snd (insert_units trd item n d w)) = auto_increment w.
Proof.
  induction n as [|n IH]; intros d w; [reflexivity|].
  simpl. unfold bind.
  pose proof (insert_dtl_auto_increment trd d (PurchaseItem.prd_id item)
                (PurchaseItem.prd_code item) (PurchaseItem.prd_name item)
                (PurchaseItem.prd_price item) tax_cd_10 w) as H1.
  destruct (cursor_execute _ w) as [[c|e] w1]; simpl in H1.
  - rewrite IH. exact H1.
  - exact H1.
Qed.

Lemma insert_items_auto_increment trd items : forall d w,
  auto_increment (snd (insert_items trd items d w)) = auto_increment w.
Proof.
  induction items as [|item rest IH]; intros d w; [reflexivity|].
  simpl. unfold bind.
  pose proof (insert_units_auto_increment trd item
                (Z.to_nat (PurchaseItem.quantity item)) d w) as H1.
  destruct (insert_units _ _ _ d w) as [[d1|e] w1]; simpl in H1.
  - rewrite IH. exact H1.
  - exact H1.
Qed.

Lemma insert_txn_auto_increment dt emp store pos total ex w c w' :
  live w ->
  cursor_execute (InsertTxn dt emp store pos total ex) w = (Ret c, w') ->
  auto_increment w' = auto_increment w + 1.
Proof.
  intros Hl. rewrite cursor_execute_eq.
  destruct (next_outcome w); [|discriminate].
  unfold run_stmt. rewrite after_call_session.
  destruct (session w) eqn:E; [|exfalso; apply Hl; exact E].
  intros H; inversion H; reflexivity.
Qed.

Lemma purchase_try_auto_increment request total ex w resp w' :
  live w ->
  purchase_try request total ex w = (Ret resp, w') ->
  auto_increment w' = auto_increment w + 1.
Proof.
  intros Hl H. unfold purchase_try, bind, datetime_now in H.
  destruct (cursor_execute _ w) as [[c|e] w1] eqn:E1; [|discriminate].
  pose proof (insert_txn_auto_increment _ _ _ _ _ _ _ _ _ Hl E1) as H1.
  match type of H with context [insert_items ?a ?b ?c w1] =>
    pose proof (insert_items_auto_increment a b c w1) as H2;
    destruct (insert_items a b c w1) as [[d|e2] w2]
  end; [|discriminate].
  simpl in H2. rewrite conn_commit_eq in H.
  destruct (next_outcome w2); [|discriminate].
  destruct (session w2); [|discriminate].
  unfold ret in H. inversion H; subst. simpl. congruence.
Qed.

(** A purchase that answers has used up exactly one id. *)
Lemma purchase_ret_auto_increment request w resp w' :
  purchase request w = (Ret resp, w') ->
  auto_increment w' = auto_increment w + 1.
Proof.
  unfold purchase, bind, lift.
  destruct (total_amount_ex_tax _) as [ex|e0]; [|discriminate].
  rewrite get_db_connection_cases.
  destruct (negb (config_all (config w))); [discriminate|].
  destruct (next_outcome w) as [u|e1]; [|discriminate].
  cbv zeta.
  set (w1 := set_session (after_call w CConnect) (Some (committed w))).
  assert (Hl1 : live w1) by (unfold live, w1; simpl; discriminate).
  unfold try_except_pymysql.
  destruct (purchase_try _ _ _ w1) as [[resp1|e3] w3] eqn:E3.
  - intros H. inversion H; subst. simpl.
    rewrite (purchase_try_auto_increment _ _ _ _ _ _ Hl1 E3). reflexivity.
  - destruct (purchase_try_raise _ _ _ _ _ _ Hl1 E3) as ([m ->] & _).
    unfold bind. rewrite conn_rollback_eq.
    destruct (next_outcome w3) as [u3|e4] eqn:E4.
    + destruct (session w3); simpl; discriminate.
    + destruct (next_outcome_raise _ _ E4) as [m4 ->]. simpl. discriminate.
Qed.

End Ids.

(** X10: all or nothing, on every path: a purchase either answers, and then
    exactly one header and the detail rows of its items have been added to
    the committed tables, or it raises, and then the committed tables are as
    before.  The catalog is never written. *)
Theorem purchase_all_or_nothing :
  forall request w,
    let r := purchase request w in
    m_product (committed (snd r)) = m_product (committed w)
    /\ ((exists resp header,
           fst r = Ret resp
           /\ Some (TRD_ID header) = PurchaseResponse.transaction_id resp
           /\ t_txn (committed (snd r)) = t_txn (committed w) ++ [header]
           /\ t_txn_dtl (committed (snd r))
              = t_txn_dtl (committed w)
                ++ detail_rows (TRD_ID header) (PurchaseRequest.items request) 1)
        \/ (exists e, fst r = Raise e /\ committed (snd r) = committed w)).
Proof.
  intros request w r. subst r.
  destruct (purchase request w) as [[resp|e] w'] eqn:E; cbn [fst snd].
  - destruct (purchase_ret _ _ _ _ E) as (ex & _ & -> & Hc).
    rewrite Hc. split; [reflexivity|]. left.
    eexists. exists (header_row request ex w).
    split; [reflexivity|]. split; [reflexivity|]. split; reflexivity.
  - rewrite (purchase_raise_committed _ _ _ _ E).
    split; [reflexivity|]. right. exists e. split; reflexivity.
Qed.

(** X11: two purchases that answer one after the other get consecutive
    transaction ids; both headers are in the table in that order, and each
    purchase's detail rows carry its own id and are numbered from 1 again. *)
Theorem purchase_twice :
  forall request1 request2 w resp1 w1 resp2 w2,
    purchase request1 w = (Ret resp1, w1) ->
    purchase request2 w1 = (Ret resp2, w2) ->
    PurchaseResponse.transaction_id resp1 = Some (auto_increment w)
    /\ PurchaseResponse.transaction_id resp2 = Some (auto_increment w + 1)
    /\ List.map TRD_ID (t_txn (committed w2))
       = List.map TRD_ID (t_txn (committed w))
         ++ [auto_increment w; auto_increment w + 1]
    /\ t_txn_dtl (committed w2)
       = t_txn_dtl (committed w)
         ++ detail_rows (auto_increment w) (PurchaseRequest.items request1) 1
         ++ detail_rows (auto_increment w + 1)
                        (PurchaseRequest.items request2) 1.
Proof.
  intros request1 request2 w resp1 w1 resp2 w2 H1 H2.
  pose proof (purchase_ret_auto_increment _ _ _ _ H1) as Hai.
  destruct (purchase_ret _ _ _ _ H1) as (ex1 & _ & -> & Hc1).
  destruct (purchase_ret _ _ _ _ H2) as (ex2 & _ & -> & Hc2).
  rewrite Hc2, Hc1, Hai. simpl.
  split; [reflexivity|]. split; [reflexivity|]. split.
  - rewrite !map_app, <- app_assoc. reflexivity.
  - rewrite <- app_assoc. reflexivity.
Qed.

Lemma purchase_twice_witness :
  exists resp2 w2,
    purchase (Example.request (Some (lit "E1")))
             (snd (purchase (Example.request None) (Example.world [])))
    = (Ret resp2, w2)
    /\ PurchaseResponse.transaction_id resp2 = Some 2.
Proof.
  assert (E1 : purchase (Example.request None) (Example.world [])
               = (Ret ?[resp1], ?[w1])) by (vm_compute; reflexivity).
  rewrite E1. cbn [snd].
  eexists; eexists.
  match goal with |- purchase ?r ?w = _ /\ _ =>
    assert (E2 : purchase r w = (Ret ?[resp2], ?[w2]))
      by (vm_compute; reflexivity)
  end.
  split; [exact E2|].
  exact (proj1 (proj2 (purchase_twice _ _ _ _ _ _ _ E1 E2))).
Defined.

(** ** Totals that do not compute *)

Lemma sum_gen_raise {A} (f : A -> result Z) pre x post e :
  (forall y, In y pre -> exists v, f y = Ret v) ->
  f x = Raise e ->
  forall acc, sum_gen f (pre ++ x :: post) acc = Raise e.
Proof.
  intros Hpre Hx. induction pre as [|y pre IH]; intros acc; simpl.
  - rewrite Hx. reflexivity.
  - destruct (Hpre y (or_introl eq_refl)) as [v ->]. simpl.
    apply IH. intros z Hz. apply Hpre. right. exact Hz.
Qed.

(** The only exceptions the unit price can raise. *)
Lemma unit_price_ex_tax_raise price e :
  unit_price_ex_tax price = Raise e -> e = OverflowError \/ e = ValueError.
Proof.
  unfold unit_price_ex_tax, Float.int_truediv, Float.of_int.
  destruct (binary_normalize _ _ _ _ _); simpl;
    try (intros H; inversion H; auto; fail);
    match goal with |- context [Float.floor ?x] => destruct x end; simpl;
    intros H; inversion H; auto.
Qed.

(** X12: the totals are computed before the store is approached: when the
    unit price of some item cannot be computed (the price does not fit a
    float) and those of the items before it can, the purchase raises that
    exception, unhandled (status 500), and no driver call has been made. *)
Theorem purchase_totals_raise :
  forall request w pre item post e,
    PurchaseRequest.items request = pre ++ item :: post ->
    (forall i, In i pre ->
       exists u, unit_price_ex_tax (PurchaseItem.prd_price i) = Ret u) ->
    unit_price_ex_tax (PurchaseItem.prd_price item) = Raise e ->
    purchase request w = (Raise e, w)
    /\ http_status (fst (purchase request w)) = HTTP_500_INTERNAL_SERVER_ERROR.
Proof.
  intros request w pre item post e Hi Hpre Hitem.
  assert (E : purchase request w = (Raise e, w)).
  { unfold purchase, bind, lift, total_amount_ex_tax. rewrite Hi.
    rewrite (sum_gen_raise _ pre item post e); [reflexivity| |].
    - intros y Hy. destruct (Hpre y Hy) as [u ->]. simpl. eexists; reflexivity.
    - rewrite Hitem. reflexivity. }
  rewrite E. split; [reflexivity|].
  destruct (unit_price_ex_tax_raise _ _ Hitem) as [-> | ->]; reflexivity.
Qed.

Lemma purchase_totals_raise_witness :
  purchase (PurchaseRequest.mk None (lit "30") (lit "90")
              [Example.item 108 1; Example.item (2 ^ 1024) 1])
           (Example.world [])
  = (Raise OverflowError, Example.world []).
Proof.
  refine (proj1 (purchase_totals_raise
                   (PurchaseRequest.mk None (lit "30") (lit "90")
                      [Example.item 108 1; Example.item (2 ^ 1024) 1])
                   (Example.world [])
                   [Example.item 108 1] (Example.item (2 ^ 1024) 1) []
                   OverflowError eq_refl _ _)).
  - intros i [<-|[]]. exists 98. vm_compute. reflexivity.
  - vm_compute. reflexivity.
Defined.

(** ** Health check *)

Lemma config_all_needs_all c :
  Config.DB_PASSWORD c = [] \/ Config.DB_NAME c = [] -> config_all c = false.
Proof.
  unfold config_all. intros [-> | ->]; simpl;
    rewrite ?andb_false_r; reflexivity.
Qed.

Lemma str_truthy_iff s : str_truthy s = true <-> s <> [].
Proof. destruct s; simpl; split; try discriminate; try reflexivity; intros H; contradiction. Qed.

(** X13: the health check never approaches the store and leaves the world
    as it was.  It reports [db_configured] exactly when host and user are
    both set, so it is true whenever the connection provider accepts the
    configuration, but it can be true while the provider refuses: with an
    empty password or database name every acquisition fails with 503
    "configuration incomplete". *)
Theorem health_check_db_configured :
  forall w,
    exists h,
      health_check w = (Ret h, w)
      /\ HealthResponse.timestamp h = clock w
      /\ (HealthResponse.db_configured h = true <->
          Config.DB_HOST (config w) <> [] /\ Config.DB_USER (config w) <> [])
      /\ (config_all (config w) = true -> HealthResponse.db_configured h = true)
      /\ (Config.DB_PASSWORD (config w) = [] \/ Config.DB_NAME (config w) = [] ->
          forall (A : Type) (body : M A),
            get_db_connection body w
            = (Raise (HTTPException HTTP_503_SERVICE_UNAVAILABLE
                                    detail_config_incomplete), w)).
Proof.
  intros w. eexists. split; [reflexivity|]. split; [reflexivity|].
  cbn [HealthResponse.db_configured]. split; [|split].
  - rewrite andb_true_iff, !str_truthy_iff. tauto.
  - unfold config_all. intros H.
    apply andb_true_iff in H as [H _]. apply andb_true_iff in H as [H _].
    exact H.
  - intros Hp A body. unfold get_db_connection.
    rewrite (config_all_needs_all _ Hp). reflexivity.
Qed.

Lemma health_check_db_configured_witness :
  exists h,
    health_check (mkWorld (Config.mk (lit "db") (lit "pos") [] (lit "pos_db") 3306)
                          (mkTables [] [] []) 1 str_eqb 0 None [] [])
    = (Ret h, mkWorld (Config.mk (lit "db") (lit "pos") [] (lit "pos_db") 3306)
                      (mkTables [] [] []) 1 str_eqb 0 None [] [])
    /\ HealthResponse.db_configured h = true
    /\ fst (get_db_connection (ret tt)
              (mkWorld (Config.mk (lit "db") (lit "pos") [] (lit "pos_db") 3306)
                       (mkTables [] [] []) 1 str_eqb 0 None [] []))
       = Raise (HTTPException 503 detail_config_incomplete).
Proof.
  destruct (health_check_db_configured
              (mkWorld (Config.mk (lit "db") (lit "pos") [] (lit "pos_db") 3306)
                       (mkTables [] [] []) 1 str_eqb 0 None [] []))
    as (h & Hh & _ & Hiff & _ & Hprov).
  exists h. split; [exact Hh|]. split.
  - apply Hiff. split; discriminate.
  - rewrite (Hprov (or_introl eq_refl) unit (ret tt)). reflexivity.
Defined.

(** ** The contract, both ways *)

Section ContractBothWays.

Lemma forallb_false_exists {A} (f : A -> bool) l :
  List.forallb f l = false -> exists x, In x l /\ f x = false.
Proof.
  induction l as [|x l IH]; simpl; [discriminate|].
  destruct (f x) eqn:E; simpl.
  - intros H. destruct (IH H) as (y & Hy & Hf). exists y. auto.
  - intros _. exists x. auto.
Qed.

Lemma item_invalid item :
  PurchaseItem.valid item = false ->
  PurchaseItem.prd_price item <= 0 \/ PurchaseItem.quantity item < 1
  \/ 9999 < PurchaseItem.quantity item.
Proof.
  unfold PurchaseItem.valid. intros H.
  destruct (0 <? PurchaseItem.prd_price item) eqn:E1;
    [|apply Z.ltb_ge in E1; lia].
  destruct (0 <? PurchaseItem.quantity item) eqn:E2;
    [|apply Z.ltb_ge in E2; lia].
  simpl in H. apply Z.leb_gt in H. lia.
Qed.

Lemma items_field_raise_why f e :
  items_field f = Raise e ->
  f = Missing \/ f = Null \/ f = Value []
  \/ exists l item, f = Value l /\ In item l
       /\ (PurchaseItem.prd_price item <= 0 \/ PurchaseItem.quantity item < 1
           \/ 9999 < PurchaseItem.quantity item).
Proof.
  destruct f as [| |l]; simpl; auto.
  destruct l as [|i l]; auto. intros H. do 3 right.
  destruct ((1 <=? Z.of_nat (List.length (i :: l)))
            && List.forallb PurchaseItem.valid (i :: l)) eqn:E; [discriminate|].
  apply andb_false_iff in E as [E|E].
  - apply Z.leb_gt in E. simpl List.length in E. lia.
  - destruct (forallb_false_exists _ _ E) as (item & Hin & Hv).
    exists (i :: l), item. split; [reflexivity|]. split; [exact Hin|].
    apply item_invalid. exact Hv.
Qed.

Lemma constrained_str_false s :
  constrained_str s = false -> 20 < len s \/ encodable s = false.
Proof.
  unfold constrained_str. intros H. apply andb_false_iff in H as [H|H].
  - right. exact H.
  - left. apply Z.leb_gt. exact H.
Qed.

Lemma str_field_raise_why d f e :
  str_field d f = Raise e ->
  f = Null \/ exists s, f = Value s /\ (20 < len s \/ encodable s = false).
Proof.
  destruct f as [| |s]; simpl; [discriminate|auto|].
  destruct (constrained_str s) eqn:E; [discriminate|]. intros _.
  right. exists s. split; [reflexivity|]. apply constrained_str_false. exact E.
Qed.

Lemma optional_str_field_raise_why f e :
  optional_str_field f = Raise e ->
  exists s, f = Value s /\ (20 < len s \/ encodable s = false).
Proof.
  destruct f as [| |s]; simpl; [discriminate|discriminate|].
  destruct (constrained_str s) eqn:E; [discriminate|]. intros _.
  exists s. split; [reflexivity|]. apply constrained_str_false. exact E.
Qed.

Lemma parse_request_raise_rejected b e :
  parse_request b = Raise e -> rejected b.
Proof.
  unfold parse_request, rejected, breaks_contract.
  destruct (optional_str_field (Body.emp_cd b)) as [emp|e1] eqn:E1; simpl.
  2:{ intros _.
      destruct (optional_str_field_raise_why _ _ E1) as (s & Hs & [Hl|Hu]).
      - left. left. exists s. split; assumption.
      - do 3 right. left. exists s. split; assumption. }
  destruct (str_field (lit "30") (Body.store_cd b)) as [store|e2] eqn:E2; simpl.
  2:{ intros _.
      destruct (str_field_raise_why _ _ _ E2) as [H|(s & Hs & [Hl|Hu])].
      - right; left; exact H.
      - left; right; left. exists s. split; assumption.
      - do 4 right. left. exists s. split; assumption. }
  destruct (str_field (lit "90") (Body.pos_no b)) as [pos|e3] eqn:E3; simpl.
  2:{ intros _.
      destruct (str_field_raise_why _ _ _ E3) as [H|(s & Hs & [Hl|Hu])].
      - right; right; left; exact H.
      - left; right; right; left. exists s. split; assumption.
      - do 5 right. exists s. split; assumption. }
  destruct (items_field (Body.items b)) as [its|e4] eqn:E4; simpl;
    [discriminate|].
  intros _. left. do 3 right.
  destruct (items_field_raise_why _ _ E4) as [H|[H|[H|H]]];
    [left; left; exact H|left; right; exact H|right; left; exact H
    |right; right; exact H].
Qed.

Lemma str_field_unencodable d s :
  encodable s = false -> str_field d (Value s) = Raise RequestValidationError.
Proof. intros H. simpl. unfold constrained_str. rewrite H. reflexivity. Qed.

Lemma parse_request_rejected b :
  rejected b -> parse_request b = Raise RequestValidationError.
Proof.
  intros [H|H]; [apply parse_request_breaks; exact H|].
  unfold parse_request.
  destruct H as [H|[H|[(s & Hs & Hu)|H]]].
  - destruct (optional_str_field (Body.emp_cd b)) as [emp|e1] eqn:E1; simpl;
      [|rewrite (optional_str_field_raise _ _ E1); reflexivity].
    rewrite H. reflexivity.
  - destruct (optional_str_field (Body.emp_cd b)) as [emp|e1] eqn:E1; simpl;
      [|rewrite (optional_str_field_raise _ _ E1); reflexivity].
    destruct (str_field (lit "30") (Body.store_cd b)) as [store|e2] eqn:E2;
      simpl; [|rewrite (str_field_raise _ _ _ E2); reflexivity].
    rewrite H. reflexivity.
  - rewrite Hs. simpl. unfold constrained_str. rewrite Hu. reflexivity.
  - destruct (optional_str_field (Body.emp_cd b)) as [emp|e1] eqn:E1; simpl;
      [|rewrite (optional_str_field_raise _ _ E1); reflexivity].
    destruct H as [(s & Hs & Hu)|(s & Hs & Hu)].
    + rewrite Hs, (str_field_unencodable _ _ Hu). reflexivity.
    + destruct (str_field (lit "30") (Body.store_cd b)) as [store|e2] eqn:E2;
        simpl; [|rewrite (str_field_raise _ _ _ E2); reflexivity].
      rewrite Hs, (str_field_unencodable _ _ Hu). reflexivity.
Qed.

(** What an accepted body turns into. *)
Lemma parse_request_fields b request :
  parse_request b = Ret request ->
  PurchaseRequest.store_cd request
  = match Body.store_cd b with Value s => s | _ => lit "30" end
  /\ PurchaseRequest.pos_no request
     = match Body.pos_no b with Value s => s | _ => lit "90" end
  /\ PurchaseRequest.valid request = true.
Proof.
  unfold parse_request.
  destruct (optional_str_field (Body.emp_cd b)) as [emp|] eqn:E1; [|discriminate].
  destruct (str_field _ (Body.store_cd b)) as [store|] eqn:E2; [|discriminate].
  destruct (str_field _ (Body.pos_no b)) as [pos|] eqn:E3; [|discriminate].
  destruct (items_field (Body.items b)) as [its|] eqn:E4; [|discriminate].
  simpl. intros H; inversion H; subst; clear H.
  unfold PurchaseRequest.valid. simpl.
  assert (Hemp : match emp with None => true | Some s => len s <=? 20 end = true).
  { destruct (Body.emp_cd b) as [| |s]; simpl in E1.
    - inversion E1; reflexivity.
    - inversion E1; reflexivity.
    - destruct (constrained_str s) eqn:E; inversion E1.
      unfold constrained_str in E. apply andb_true_iff in E as [_ E]. exact E. }
  assert (Hstr : forall d f s, len d <= 20 -> str_field d f = Ret s ->
                   s = match f with Value v => v | _ => d end
                   /\ (len s <=? 20) = true).
  { intros d f s Hd Hf. destruct f as [| |v]; simpl in Hf.
    - inversion Hf; subst. split; [reflexivity|apply Z.leb_le; exact Hd].
    - discriminate.
    - destruct (constrained_str v) eqn:E; inversion Hf; subst.
      unfold constrained_str in E. apply andb_true_iff in E as [_ E].
      split; [reflexivity|exact E]. }
  destruct (Hstr (lit "30") _ _ ltac:(unfold len; simpl; lia) E2) as [Hs1 Hl1].
  destruct (Hstr (lit "90") _ _ ltac:(unfold len; simpl; lia) E3) as [Hs2 Hl2].
  split; [exact Hs1|]. split; [exact Hs2|].
  rewrite Hemp, Hl1, Hl2. simpl.
  unfold items_field in E4. destruct (Body.items b) as [| |l]; try discriminate.
  destruct (_ && _) eqn:E; [|discriminate]. inversion E4; subst. exact E.
Qed.

End ContractBothWays.

(** X14: a body of the contract's shape is refused exactly when it breaks a
    declared constraint: an [emp_cd], [store_cd] or [pos_no] longer than 20
    characters or holding a surrogate code point, a [null] [store_cd] or
    [pos_no], [items] missing, [null] or empty, or an item whose price is
    not positive or whose quantity is outside 1..9999; the refusal is always
    the validation error.  Every other such body reaches the handler. *)
Theorem parse_request_refuses_exactly :
  forall b,
    (rejected b <-> exists e, parse_request b = Raise e)
    /\ (forall e, parse_request b = Raise e -> e = RequestValidationError)
    /\ (~ rejected b ->
        exists request,
          parse_request b = Ret request
          /\ forall w, post_purchase b w = purchase request w).
Proof.
  intros b. split; [split|split].
  - intros H. eexists. apply parse_request_rejected. exact H.
  - intros [e H]. eapply parse_request_raise_rejected. exact H.
  - intros e H. pose proof (parse_request_raise_rejected _ _ H) as Hr.
    rewrite (parse_request_rejected _ Hr) in H. inversion H. reflexivity.
  - intros Hn. destruct (parse_request b) as [request|e] eqn:E.
    + exists request. split; [reflexivity|]. intros w.
      unfold post_purchase, bind, lift. rewrite E. reflexivity.
    + exfalso. apply Hn. eapply parse_request_raise_rejected. exact E.
Qed.

Lemma parse_request_refuses_exactly_witness :
  exists request,
    parse_request (Example.body Null [Example.item 1 9999]) = Ret request
    /\ PurchaseRequest.emp_cd request = None.
Proof.
  destruct (proj2 (proj2 (parse_request_refuses_exactly
                            (Example.body Null [Example.item 1 9999]))))
    as (request & Hr & _).
  - intros Hrej.
    apply (proj1 (proj1 (parse_request_refuses_exactly _))) in Hrej.
    destruct Hrej as [e He]. vm_compute in He. discriminate.
  - exists request. split; [exact Hr|].
    vm_compute in Hr. inversion Hr. reflexivity.
Defined.

(** X15: the handler only ever sees a request that satisfies the contract,
    and the defaults of the model are what is stored: a purchase that
    answers has written [STORE_CD] "30" and [POS_NO] "90" when the body
    leaves them out, and the given strings, of at most 20 characters,
    otherwise. *)
Theorem post_purchase_defaults :
  forall b w resp w',
    post_purchase b w = (Ret resp, w') ->
    exists request header,
      parse_request b = Ret request
      /\ PurchaseRequest.valid request = true
      /\ t_txn (committed w') = t_txn (committed w) ++ [header]
      /\ STORE_CD header
         = match Body.store_cd b with Value s => s | _ => lit "30" end
      /\ POS_NO header
         = match Body.pos_no b with Value s => s | _ => lit "90" end
      /\ len (STORE_CD header) <= 20 /\ len (POS_NO header) <= 20.
Proof.
  intros b w resp w' H.
  destruct (post_purchase_ret _ _ _ _ H) as (request & Hp & Hr).
  destruct (parse_request_fields _ _ Hp) as (Hs & Hn & Hv).
  destruct (purchase_ret _ _ _ _ Hr) as (ex & _ & _ & Hc).
  exists request. eexists. split; [exact Hp|]. split; [exact Hv|].
  rewrite Hc. cbn [t_txn]. split; [reflexivity|].
  cbn [STORE_CD POS_NO]. split; [exact Hs|]. split; [exact Hn|].
  unfold PurchaseRequest.valid in Hv.
  apply andb_true_iff in Hv as [Hv _]. apply andb_true_iff in Hv as [Hv _].
  apply andb_true_iff in Hv as [Hv Hpos]. apply andb_true_iff in Hv as [_ Hst].
  split; apply Z.leb_le; assumption.
Qed.

Lemma post_purchase_defaults_witness :
  exists header,
    t_txn (committed (snd (post_purchase
                             (Example.body Missing [Example.item 108 2])
                             (Example.world []))))
    = [header]
    /\ STORE_CD header = lit "30" /\ POS_NO header = lit "90".
Proof.
  assert (E : post_purchase (Example.body Missing [Example.item 108 2])
                            (Example.world [])
              = (Ret ?[resp], ?[w'])) by (vm_compute; reflexivity).
  destruct (post_purchase_defaults _ _ _ _ E)
    as (request & header & _ & _ & Hh & Hs & Hp & _).
  exists header. rewrite E. split; [exact Hh|]. split; [exact Hs|exact Hp].
Defined.

(** ** Sizes under the contract *)

(** X16: for a request that satisfies the contract, the number of detail
    rows to write lies between the number of items and 9999 times that
    number, there is at least one, and the tax-inclusive total is at least
    the number of rows, hence positive. *)
Theorem valid_request_sizes :
  forall request,
    PurchaseRequest.valid request = true ->
    let items := PurchaseRequest.items request in
    let n := Z.of_nat (List.length items) in
    1 <= n
    /\ n <= Z.of_nat (units items) <= 9999 * n
    /\ Z.of_nat (units items) <= total_amount items.
Proof.
  intros request Hv items n. subst n.
  pose proof (valid_items _ Hv) as Hitems. fold items in Hitems.
  assert (Hlen : 1 <= Z.of_nat (List.length items)).
  { unfold PurchaseRequest.valid in Hv.
    apply andb_true_iff in Hv as [Hv _]. apply andb_true_iff in Hv as [_ Hv].
    apply Z.leb_le in Hv. exact Hv. }
  split; [exact Hlen|].
  unfold total_amount. rewrite sum_map_sigma.
  clear Hv Hlen. induction items as [|item rest IH]; [simpl; lia|].
  simpl in Hitems. apply andb_true_iff in Hitems as [Hi Hr].
  specialize (IH Hr). unfold PurchaseItem.valid in Hi.
  apply andb_true_iff in Hi as [Hi Hle]. apply andb_true_iff in Hi as [Hp Hq].
  apply Z.ltb_lt in Hp, Hq. apply Z.leb_le in Hle.
  cbn [List.length units fold_right sigma]. fold (units rest).
  rewrite Nat2Z.inj_succ, Nat2Z.inj_add, Z2Nat.id by lia. nia.
Qed.

Lemma valid_request_sizes_witness :
  Z.of_nat (units (PurchaseRequest.items (Example.request None)))
  <= total_amount (PurchaseRequest.items (Example.request None)).
Proof.
  exact (proj2 (proj2 (valid_request_sizes (Example.request None) eq_refl))).
Defined.

(** ** The statuses the endpoints answer with *)

Lemma total_amount_ex_tax_raise items e :
  total_amount_ex_tax items = Raise e -> e = OverflowError \/ e = ValueError.
Proof.
  unfold total_amount_ex_tax. generalize 0.
  induction items as [|item rest IH]; intros acc; simpl; [discriminate|].
  destruct (unit_price_ex_tax (PurchaseItem.prd_price item)) as [u|e1] eqn:E;
    simpl.
  - apply IH.
  - intros H; inversion H; subst. eapply unit_price_ex_tax_raise. exact E.
Qed.

(** What [purchase] can end with. *)
Lemma purchase_outcomes request w :
  (exists resp, fst (purchase request w) = Ret resp)
  \/ fst (purchase request w) = Raise OverflowError
  \/ fst (purchase request w) = Raise ValueError
  \/ fst (purchase request w)
     = Raise (HTTPException HTTP_503_SERVICE_UNAVAILABLE detail_config_incomplete)
  \/ fst (purchase request w)
     = Raise (HTTPException HTTP_503_SERVICE_UNAVAILABLE detail_cannot_connect)
  \/ exists cause,
       fst (purchase request w)
       = Raise (HTTPException HTTP_500_INTERNAL_SERVER_ERROR
                              (detail_purchase_failed ++ cause)).
Proof.
  unfold purchase, bind, lift.
  destruct (total_amount_ex_tax _) as [ex|e0] eqn:E0.
  2:{ destruct (total_amount_ex_tax_raise _ _ E0) as [-> | ->]; auto. }
  rewrite get_db_connection_cases.
  destruct (negb (config_all (config w))); [auto 6|].
  destruct (next_outcome w) as [u|e1]; [|auto 6].
  cbv zeta.
  set (w1 := set_session (after_call w CConnect) (Some (committed w))).
  assert (Hl1 : live w1) by (unfold live, w1; simpl; discriminate).
  unfold try_except_pymysql.
  destruct (purchase_try _ _ _ w1) as [[resp1|e3] w3] eqn:E3.
  - left. eexists; reflexivity.
  - destruct (purchase_try_raise _ _ _ _ _ _ Hl1 E3) as ([m ->] & _).
    unfold bind. rewrite conn_rollback_eq.
    destruct (next_outcome w3) as [u3|e4] eqn:E4.
    + destruct (session w3); simpl; [|auto 6].
      do 5 right. exists m. reflexivity.
    + destruct (next_outcome_raise _ _ E4) as [m4 ->]. simpl. auto 6.
Qed.

(** X17: the handler [purchase], called with any request and in any world,
    ends with status 200, 500 or 503: it raises no client error, so a store
    that fails never shows as one; and when it answers, [success] is true
    and a transaction id is given. *)
Theorem purchase_handler_statuses :
  forall request w,
    let r := fst (purchase request w) in
    (http_status r = 200 \/ http_status r = HTTP_500_INTERNAL_SERVER_ERROR
     \/ http_status r = HTTP_503_SERVICE_UNAVAILABLE)
    /\ (forall resp, r = Ret resp ->
          PurchaseResponse.success resp = true
          /\ PurchaseResponse.transaction_id resp = Some (auto_increment w)).
Proof.
  intros request w r. subst r. split.
  - destruct (purchase_outcomes request w)
      as [[resp H]|[H|[H|[H|[H|[cause H]]]]]]; rewrite H; simpl; auto.
  - intros resp H.
    destruct (purchase request w) as [r w'] eqn:E. simpl in H. subst r.
    destruct (purchase_ret _ _ _ _ E) as (ex & _ & -> & _).
    split; reflexivity.
Qed.

(** X18: the handler [search_product], called with any dictionary and in
    any world, ends with status 200, 400, 500 or 503; the only
    [HTTPException]s it raises are the 400 of a blank code and the two 503
    of the connection provider. *)
Theorem search_product_handler_statuses :
  forall request_body w,
    let r := fst (search_product request_body w) in
    (http_status r = 200 \/ http_status r = HTTP_400_BAD_REQUEST
     \/ http_status r = HTTP_500_INTERNAL_SERVER_ERROR
     \/ http_status r = HTTP_503_SERVICE_UNAVAILABLE)
    /\ (forall status detail,
          r = Raise (HTTPException status detail) ->
          (status = HTTP_400_BAD_REQUEST /\ detail = detail_code_required)
          \/ (status = HTTP_503_SERVICE_UNAVAILABLE
              /\ (detail = detail_config_incomplete
                  \/ detail = detail_cannot_connect))).
Proof.
  intros request_body w r. subst r.
  assert (G : forall r, fst (search_product request_body w) = r ->
            (exists resp, r = Ret resp)
            \/ r = Raise AttributeError \/ r = Raise ValueError
            \/ r = Raise (HTTPException HTTP_400_BAD_REQUEST detail_code_required)
            \/ r = Raise (HTTPException HTTP_503_SERVICE_UNAVAILABLE
                                        detail_config_incomplete)
            \/ r = Raise (HTTPException HTTP_503_SERVICE_UNAVAILABLE
                                        detail_cannot_connect)).
  { intros r Hr. unfold search_product, bind, lift in Hr.
    destruct (py_strip _) as [code|e] eqn:E.
    2:{ unfold py_strip in E.
        destruct (dict_get _ _ _); inversion E; subst; simpl; auto. }
    destruct (negb (str_truthy code)); [subst r; simpl; auto 6|].
    unfold py_print at 1 in Hr.
    destruct (encodable code); [|subst r; simpl; auto].
    rewrite get_db_connection_cases in Hr.
    destruct (negb (config_all (config w))); [subst r; simpl; auto 6|].
    destruct (next_outcome w) as [u|e1]; [|subst r; simpl; auto 7].
    cbv zeta in Hr. cbn [fst] in Hr.
    destruct (cursor_execute _ _) as [[cur|e2] w2] eqn:E2.
    - destruct (fetchone cur) as [row|];
        [|subst r; left; eexists; reflexivity].
      unfold py_print in Hr.
      destruct (encodable (Product.prd_name row)); [|subst r; simpl; auto].
      unfold Product_of_row in Hr.
      destruct (0 <? Product.prd_price row); subst r; simpl; auto.
      left; eexists; reflexivity.
    - assert (Hl : live (set_session (after_call w CConnect)
                                     (Some (committed w))))
        by (unfold live; simpl; discriminate).
      destruct (cursor_execute_raise _ _ _ _ Hl E2) as [m ->].
      subst r. simpl. auto 7. }
  destruct (G _ eq_refl) as [[resp H]|[H|[H|[H|[H|H]]]]]; rewrite H; simpl;
    (split; [auto|]); intros status detail Heq; inversion Heq; subst; auto.
Qed.

(** ** A rollback that fails *)


